(** * Business dataset search tool: a shallow embedding of
    [business_search_tool.py] and the properties of its dispatch and
    aggregation engine.

    The Python class [BusinessDatasetSearcher] talks to the outside world
    (environment variables, HTTP, the clock, the file system, the logger).
    Those are modelled by an oracle record [World] and by a trace of
    events that every effectful function extends; exceptions are explicit
    ([result]), and [try ... except Exception] is [try_except].

    A Python string is held as its UTF-8 encoding. [split] follows
    [str.split] on every string; [lower] computes [str.lower] on ASCII
    strings and asks the world's case tables for the others. *)

From Stdlib Require Import ZArith String Ascii List Permutation Sorted Lia.
From Stdlib Require Import PrimFloat SpecFloat FloatOps.
From stdpp Require Import base gmap strings list pretty.

Open Scope string_scope.
Open Scope Z_scope.
Open Scope list_scope.

#[local] Set Warnings "-register-all".

(** ** Python values *)

(** What [json.loads], [pandas.DataFrame.to_dict] and the literals of the
    source produce: [None], booleans, unbounded integers, binary64
    floats, strings, lists and insertion-ordered dicts with string keys. *)
Inductive pyval : Type :=
| VNone
| VBool (b : bool)
| VInt (z : Z)
| VFloat (f : float)
| VStr (s : string)
| VList (l : list pyval)
| VDict (d : list (string * pyval)).

Abbreviation pydict := (list (string * pyval)).

(** An instance of a subclass of Python's [Exception]; [str(e)] is its
    message. *)
Record exn : Type := Exn { exn_class : string; exn_msg : string }.

Definition str_exn (e : exn) : string := exn_msg e.

Inductive result (A : Type) : Type :=
| Ok (a : A)
| Raise (e : exn).
Arguments Ok {A} a.
Arguments Raise {A} e.

Definition rbind {A B} (r : result A) (k : A -> result B) : result B :=
  match r with
  | Ok a => k a
  | Raise e => Raise e
  end.

Notation "'let?' x ':=' r 'in' k" := (rbind r (fun x => k))
  (at level 10, x name, r at level 100, k at level 200).

Definition type_name (v : pyval) : string :=
  match v with
  | VNone => "NoneType"
  | VBool _ => "bool"
  | VInt _ => "int"
  | VFloat _ => "float"
  | VStr _ => "str"
  | VList _ => "list"
  | VDict _ => "dict"
  end.

Definition attribute_error (v : pyval) (attr : string) : exn :=
  Exn "AttributeError"
      ("'" +:+ type_name v +:+ "' object has no attribute '" +:+ attr +:+ "'").

Definition type_error (msg : string) : exn := Exn "TypeError" msg.

(** [bool(v)]: the truth value used by [if v:] and [not v]. *)
Definition truthy (v : pyval) : bool :=
  match v with
  | VNone => false
  | VBool b => b
  | VInt z => negb (z =? 0)
  | VFloat f => negb (PrimFloat.eqb f 0%float)
  | VStr s => negb (String.eqb s "")
  | VList l => match l with [] => false | _ => true end
  | VDict d => match d with [] => false | _ => true end
  end.

(** Lookup in a dict: the value stored under [k], if any. *)
Fixpoint dict_lookup (d : pydict) (k : string) : option pyval :=
  match d with
  | [] => None
  | (k', v) :: d' => if String.eqb k' k then Some v else dict_lookup d' k
  end.

(** [d.get(k, default)] on a dict. *)
Definition dict_get (d : pydict) (k : string) (default : pyval) : pyval :=
  match dict_lookup d k with
  | Some v => v
  | None => default
  end.

(** [v.get(k, default)] on any value: only dicts have [get]. *)
Definition py_get (v : pyval) (k : string) (default : pyval) : result pyval :=
  match v with
  | VDict d => Ok (dict_get d k default)
  | _ => Raise (attribute_error v "get")
  end.

(** [v.items()]. *)
Definition py_items (v : pyval) : result pydict :=
  match v with
  | VDict d => Ok d
  | _ => Raise (attribute_error v "items")
  end.

(** A Python string is held as its UTF-8 encoding: an ASCII character
    is one byte below 128, every other character a lead byte followed
    by continuation bytes, so that a run of bytes occurs in an encoding
    exactly where the run of characters occurs in the string. *)

(** A byte that continues a character. *)
Definition is_continuation (c : ascii) : bool :=
  let n := nat_of_ascii c in ((128 <=? n) && (n <? 192))%nat.

Definition flush (cur : option string) : list string :=
  match cur with
  | Some word => [word]
  | None => []
  end.

Fixpoint chars_from (cur : option string) (s : string) : list string :=
  match s with
  | EmptyString => flush cur
  | String c s' =>
      if is_continuation c
      then chars_from
             (Some (match cur with
                    | Some ch => ch +:+ String c EmptyString
                    | None => String c EmptyString
                    end)) s'
      else flush cur ++ chars_from (Some (String c EmptyString)) s'
  end.

(** The characters of a string, in order. *)
Definition chars (s : string) : list pyval :=
  map VStr (chars_from None s).

(** The elements [for x in v] goes through. *)
Definition py_iter (v : pyval) : result (list pyval) :=
  match v with
  | VList l => Ok l
  | VDict d => Ok (map (fun kv => VStr (fst kv)) d)
  | VStr s => Ok (chars s)
  | _ => Raise (type_error ("'" +:+ type_name v +:+ "' object is not iterable"))
  end.

(** [v[0]]. *)
Definition py_index0 (v : pyval) : result pyval :=
  match v with
  | VList (x :: _) => Ok x
  | VList [] => Raise (Exn "IndexError" "list index out of range")
  | VStr s =>
      match chars s with
      | c :: _ => Ok c
      | [] => Raise (Exn "IndexError" "string index out of range")
      end
  | VDict _ => Raise (Exn "KeyError" "0")
  | _ => Raise (type_error ("'" +:+ type_name v +:+ "' object is not subscriptable"))
  end.

(** ** Numbers *)

(** [float(z)]: round to nearest even; [OverflowError] past the largest
    finite double. *)
Definition float_of_int (z : Z) : result float :=
  let f := SF2Prim (binary_normalize 53 1024 z 0 false) in
  if PrimFloat.is_infinity f
  then Raise (Exn "OverflowError" "int too large to convert to float")
  else Ok f.

(** The integer a bool or an int stands for in arithmetic. *)
Definition as_int (v : pyval) : option Z :=
  match v with
  | VBool b => Some (Z.b2z b)
  | VInt z => Some z
  | _ => None
  end.

Definition dquote : string := String (ascii_of_nat 34) EmptyString.

(** The TypeError of an operator neither operand supports. *)
Definition unsupported (op : string) (a b : pyval) : exn :=
  type_error ("unsupported operand type(s) for " +:+ op +:+ ": '"
              +:+ type_name a +:+ "' and '" +:+ type_name b +:+ "'").

(** The TypeError of a str or list concatenated with something else. *)
Definition cannot_concatenate (kind : string) (b : pyval) : exn :=
  type_error ("can only concatenate " +:+ kind +:+ " (not " +:+ dquote
              +:+ type_name b +:+ dquote +:+ ") to " +:+ kind).

(** The sum of two numbers; [op] is the operator the TypeError names
    when an operand is not one. *)
Definition num_add (op : string) (a b : pyval) : result pyval :=
  match as_int a, as_int b with
  | Some x, Some y => Ok (VInt (x + y))
  | Some x, None =>
      match b with
      | VFloat g => let? f := float_of_int x in Ok (VFloat (f + g)%float)
      | _ => Raise (unsupported op a b)
      end
  | None, Some y =>
      match a with
      | VFloat f => let? g := float_of_int y in Ok (VFloat (f + g)%float)
      | _ => Raise (unsupported op a b)
      end
  | None, None =>
      match a, b with
      | VFloat f, VFloat g => Ok (VFloat (f + g)%float)
      | _, _ => Raise (unsupported op a b)
      end
  end.

(** [a + b]. *)
Definition py_add (a b : pyval) : result pyval :=
  match a with
  | VStr s =>
      match b with
      | VStr t => Ok (VStr (s +:+ t))
      | _ => Raise (cannot_concatenate "str" b)
      end
  | VList l =>
      match b with
      | VList m => Ok (VList (l ++ m))
      | _ => Raise (cannot_concatenate "list" b)
      end
  | _ => num_add "+" a b
  end.

(** [a += b], the value [a] is bound to afterwards: a list is extended
    by the elements of any iterable. *)
Definition py_iadd (a b : pyval) : result pyval :=
  match a with
  | VStr s =>
      match b with
      | VStr t => Ok (VStr (s +:+ t))
      | _ => Raise (cannot_concatenate "str" b)
      end
  | VList l => let? items := py_iter b in Ok (VList (l ++ items))
  | _ => num_add "+=" a b
  end.

(** ** Strings *)

Definition is_ascii_char (c : ascii) : bool := (nat_of_ascii c <? 128)%nat.

Fixpoint is_ascii (s : string) : bool :=
  match s with
  | EmptyString => true
  | String c s' => is_ascii_char c && is_ascii s'
  end.

Definition lower_ascii (c : ascii) : ascii :=
  let n := nat_of_ascii c in
  if ((65 <=? n) && (n <=? 90))%nat then ascii_of_nat (n + 32) else c.

(** [s.lower()] on a string of ASCII characters. *)
Fixpoint ascii_lower (s : string) : string :=
  match s with
  | EmptyString => EmptyString
  | String c s' => String (lower_ascii c) (ascii_lower s')
  end.

(** [s.startswith(sub)]. *)
Fixpoint starts_with (sub s : string) : bool :=
  match sub, s with
  | EmptyString, _ => true
  | String _ _, EmptyString => false
  | String a sub', String b s' => Ascii.eqb a b && starts_with sub' s'
  end.

(** [sub in s] on strings: [s] has a suffix that starts with [sub]. *)
Fixpoint str_in (sub s : string) : bool :=
  starts_with sub s
  || match s with
     | EmptyString => false
     | String _ s' => str_in sub s'
     end.

(** The string of the given bytes. *)
Definition utf8 (bytes : list Z) : string :=
  fold_right (fun b s => String (ascii_of_nat (Z.to_nat b)) s)
    EmptyString bytes.

(** The characters [c.isspace()] holds of, the ones [s.split()] splits
    on: U+0009..U+000D, U+001C..U+0020, U+0085, U+00A0, U+1680,
    U+2000..U+200A, U+2028, U+2029, U+202F, U+205F, U+3000. *)
Definition whitespace : list string :=
  map utf8
    [[9]; [10]; [11]; [12]; [13]; [28]; [29]; [30]; [31]; [32];
     [194; 133]; [194; 160]; [225; 154; 128];
     [226; 128; 128]; [226; 128; 129]; [226; 128; 130]; [226; 128; 131];
     [226; 128; 132]; [226; 128; 133]; [226; 128; 134]; [226; 128; 135];
     [226; 128; 136]; [226; 128; 137]; [226; 128; 138];
     [226; 128; 168]; [226; 128; 169]; [226; 128; 175];
     [226; 129; 159]; [227; 128; 128]].

(** The whitespace character [s] starts with, if any. *)
Definition space_at (s : string) : option string :=
  List.find (fun u => starts_with u s) whitespace.

(** The scan of [s.split()]: [cur] is the word being read, [skip] the
    number of bytes left of a whitespace character being passed. *)
Fixpoint split_from (skip : nat) (cur : option string) (s : string)
  : list string :=
  match s with
  | EmptyString => flush cur
  | String c s' =>
      match skip with
      | S skip' => split_from skip' cur s'
      | O =>
          match space_at (String c s') with
          | Some u => flush cur ++ split_from (String.length u - 1) None s'
          | None =>
              split_from O
                (Some (match cur with
                       | Some word => word +:+ String c EmptyString
                       | None => String c EmptyString
                       end)) s'
          end
      end
  end.

(** [s.split()]: the maximal runs of characters that are not
    whitespace. *)
Definition split (s : string) : list string := split_from O None s.

(** [len(set(a.split()) & set(b.split()))]. *)
Definition word_overlap (a b : string) : nat :=
  size ((list_to_set (split a) : gset string) ∩ list_to_set (split b)).

(** ** Result envelopes and records *)

(** The dict every adapter returns: its three keys. *)
Record Envelope : Type := {
  source : string;
  status : string;
  data : pyval
}.

(** The dict [search_business_across_datasets] returns. *)
Record AggregatedRecord : Type := {
  business_name : pyval;
  location : pydict;
  search_timestamp : string;
  datasets_searched : list Envelope
}.

(** An element of the list [process_businesses] returns: the record of
    the dispatch, or the three-key dict of its [except] branch. *)
Inductive BusinessResult : Type :=
| Full (r : AggregatedRecord)
| Degenerate (name : pyval) (error : string) (timestamp : string).

(** One candidate of the EDGAR directory scan. *)
Record Match : Type := {
  cik : pyval;
  ticker : pyval;
  company_name : pyval;
  match_score : nat
}.

Definition match_to_py (m : Match) : pyval :=
  VDict [("cik", cik m); ("ticker", ticker m);
         ("company_name", company_name m);
         ("match_score", VInt (Z.of_nat (match_score m)))].

(** [matches.sort(key=lambda x: x['match_score'], reverse=True)]: a
    stable sort, highest score first; candidates of equal score keep
    their order. *)
Fixpoint insert_desc (m : Match) (sorted : list Match) : list Match :=
  match sorted with
  | [] => [m]
  | m' :: rest =>
      if (match_score m' <=? match_score m)%nat then m :: sorted
      else m' :: insert_desc m rest
  end.

Definition sort_desc (matches : list Match) : list Match :=
  fold_right insert_desc [] matches.

(** ** The location line of the report *)

(** [sep.join(items)]: every item must be a string. *)
Fixpoint join_from (sep : string) (i : nat) (items : list pyval)
  : result string :=
  match items with
  | [] => Ok EmptyString
  | VStr s :: rest =>
      let? tail := join_from sep (S i) rest in
      Ok (match rest with
          | [] => s
          | _ :: _ => s +:+ sep +:+ tail
          end)
  | v :: _ =>
      Raise (type_error ("sequence item " +:+ pretty i
                         +:+ ": expected str instance, "
                         +:+ type_name v +:+ " found"))
  end.

Definition py_join (sep : string) (items : list pyval) : result string :=
  join_from sep 0 items.

(** [filter(None, items)]. *)
Definition filter_truthy (items : list pyval) : list pyval :=
  List.filter truthy items.

(** The location line of a detail section: the text after `Location:',
    or nothing. *)
Definition report_location (location : pydict) : result (option string) :=
  if existsb truthy (map snd location)
  then
    let? location_str :=
      py_join ", "
        (filter_truthy [dict_get location "city" VNone;
                        dict_get location "state" VNone;
                        dict_get location "zip" VNone]) in
    Ok (if truthy (VStr location_str) then Some location_str else None)
  else Ok None.

(** [result.get('location', {})]. *)
Definition location_field (r : BusinessResult) : pydict :=
  match r with
  | Full rec => location rec
  | Degenerate _ _ _ => []
  end.

(** The location lines of the detail sections, in order; the first
    join that fails raises. *)
Fixpoint report_locations (results : list BusinessResult)
  : result (list (option string)) :=
  match results with
  | [] => Ok []
  | r :: rest =>
      let? line := report_location (location_field r) in
      let? lines := report_locations rest in
      Ok (line :: lines)
  end.

(** ** The outside world, events and the effect monad *)

Inductive level : Type := INFO | WARNING | ERROR.

(** One call of [requests.get] or [requests.post]. *)
Record request : Type := Request {
  req_method : string;
  req_url : string;
  req_params : pydict;
  req_json : pyval;
  req_headers : list (string * string);
  req_timeout : Z
}.

(** What [requests] hands back: the status code, and the outcome of
    [response.json()], which raises on a body that is not JSON. *)
Record response : Type := Response {
  status_code : Z;
  json : result pyval
}.

(** What [pd.read_csv] hands back: the column labels and the rows. *)
Record DataFrame : Type := {
  columns : list string;
  rows : list (list pyval)
}.

(** [name in df.columns]. *)
Definition has_column (name : string) (df : DataFrame) : bool :=
  existsb (String.eqb name) (columns df).

(** [df.to_dict('records')]. *)
Definition to_dict_records (df : DataFrame) : list pydict :=
  map (fun row => combine (columns df) row) (rows df).

(** What the tool writes to a file: the sample CSV, the HTML report made
    from the results and the generation time, or the JSON dump. *)
Inductive file_content : Type :=
| CsvOf (df : DataFrame)
| HtmlReport (results : list BusinessResult) (generated_on : string)
| JsonDump (results : list BusinessResult).

Inductive event : Type :=
| EvLog (lvl : level) (msg : string) (args : list pyval)
| EvRequest (r : request)
| EvSleep (seconds : pyval)
| EvWrite (path : string) (content : file_content).

(** The environment the searcher runs in. [unicode_lower] is what
    [str.lower] makes of a string that has a character outside ASCII:
    the case tables of the interpreter. Every oracle but [getenv] and
    [unicode_lower] sees the events so far, so the same call can be
    answered differently at different times. *)
Record World : Type := {
  getenv : string -> option string;
  unicode_lower : string -> string;
  http : request -> list event -> result response;
  now_isoformat : list event -> string;
  now_strftime : string -> list event -> string;
  path_exists : string -> list event -> bool;
  read_csv : string -> list event -> result DataFrame;
  open_for_writing : string -> list event -> result unit
}.

Definition M (A : Type) : Type := list event -> result A * list event.

Definition ret {A} (a : A) : M A := fun t => (Ok a, t).

Definition bind {A B} (m : M A) (k : A -> M B) : M B :=
  fun t =>
    match m t with
    | (Ok a, t') => k a t'
    | (Raise e, t') => (Raise e, t')
    end.

Notation "'let*' x ':=' m 'in' k" := (bind m (fun x => k))
  (at level 10, x name, m at level 100, k at level 200).
Notation "m ';;' k" := (bind m (fun _ => k))
  (at level 100, k at level 200, right associativity).

(** A pure computation that may raise, run in place. *)
Definition lift {A} (r : result A) : M A := fun t => (r, t).

(** [try: body  except Exception as e: handler(e)]. *)
Definition try_except {A} (body : M A) (handler : exn -> M A) : M A :=
  fun t =>
    match body t with
    | (Ok a, t') => (Ok a, t')
    | (Raise e, t') => handler e t'
    end.

Definition emit (ev : event) : M unit := fun t => (Ok tt, t ++ [ev]).

(** [logger.info], [logger.warning], [logger.error]: the f-string's
    text with the values of its placeholders. *)
Definition log (lvl : level) (msg : string) (args : list pyval) : M unit :=
  emit (EvLog lvl msg args).

(** [time.sleep(seconds)]. *)
Definition sleep (seconds : pyval) : M unit := emit (EvSleep seconds).

(** [d[k]] on a dict. *)
Definition dict_index (d : pydict) (k : string) : result pyval :=
  match dict_lookup d k with
  | Some v => Ok v
  | None => Raise (Exn "KeyError" ("'" +:+ k +:+ "'"))
  end.

(** ** The searcher *)

Section BusinessDatasetSearcher.

Variable w : World.

(** [s.lower()]. *)
Definition lower (s : string) : string :=
  if is_ascii s then ascii_lower s else unicode_lower w s.

(** [v.lower()] on any value: only strings have [lower]. *)
Definition py_lower (v : pyval) : result string :=
  match v with
  | VStr s => Ok (lower s)
  | _ => Raise (attribute_error v "lower")
  end.

(** [self.api_delays], in seconds. *)
Definition api_delays : pydict :=
  [("sam", VInt 1); ("usaspending", VFloat 0.5); ("census", VFloat 0.5);
   ("edgar", VInt 1); ("sba", VFloat 0.5)].

(** [requests.get(...)] and [requests.post(...)]: the call is recorded
    and answered by the world, with a response or a transport error. *)
Definition requests_call (r : request) : M response :=
  fun t => (http w r t, t ++ [EvRequest r]).

(** [datetime.now().isoformat()]. *)
Definition now_iso : M string := fun t => (Ok (now_isoformat w t), t).

(** [datetime.now().strftime(fmt)]. *)
Definition strftime (fmt : string) : M string :=
  fun t => (Ok (now_strftime w fmt t), t).

(** *** read_business_csv *)

Definition read_business_csv (filepath : string) : M (list pydict) :=
  try_except
    (let* df := (fun t => (read_csv w filepath t, t)) in
     log INFO "Loaded {len(df)} businesses from {filepath}"
         [VInt (Z.of_nat (length (rows df))); VStr filepath];;
     if negb (has_column "business_name" df)
     then lift (Raise (Exn "ValueError" "CSV must contain 'business_name' column"))
     else ret (to_dict_records df))
    (fun e =>
       log ERROR "Error reading CSV: {e}" [VStr (str_exn e)];;
       ret []).

(** *** search_sam_gov *)

Definition sam_found (entity : pyval) : result Envelope :=
  let? registration := py_get entity "entityRegistration" (VDict []) in
  let? uei := py_get registration "ueiSAM" VNone in
  let? registration := py_get entity "entityRegistration" (VDict []) in
  let? cage_code := py_get registration "cageCode" VNone in
  let? core := py_get entity "coreData" (VDict []) in
  let? legal_name := py_get core "legalBusinessName" VNone in
  let? registration := py_get entity "entityRegistration" (VDict []) in
  let? registration_status := py_get registration "registrationStatus" VNone in
  let? naics_information := py_get entity "naicsInformation" (VDict []) in
  let? primary := py_get naics_information "primaryNaics" (VList []) in
  let? naics_list := py_iter primary in
  let? naics_codes :=
    fold_right
      (fun naics acc =>
         let? code := py_get naics "naicsCode" VNone in
         let? codes := acc in
         Ok (code :: codes))
      (Ok []) naics_list in
  Ok {| source := "SAM.gov";
        status := "found";
        data := VDict [("uei", uei); ("cage_code", cage_code);
                       ("legal_name", legal_name);
                       ("registration_status", registration_status);
                       ("naics_codes", VList naics_codes)] |}.

Definition sam_params (business_name : pyval) (location_info : option pydict)
  : pydict :=
  let params :=
    [("api_key", VStr (default "" (getenv w "SAM_API_KEY")));
     ("legalBusinessName", business_name);
     ("includeSections", VStr "entityRegistration,coreData")] in
  match location_info with
  | Some loc =>
      if truthy (VDict loc) && truthy (dict_get loc "state" VNone)
      then params ++ [("stateOrProvinceCode", dict_get loc "state" VNone)]
      else params
  | None => params
  end.

(** [requests.get(base_url, params=params, timeout=30)]. *)
Definition sam_request (params : pydict) : request :=
  let base_url := "https://api.sam.gov/entity-information/v3/entities" in
  Request "GET" base_url params VNone [] 30.

Definition search_sam_gov_body (business_name : pyval)
    (location_info : option pydict) : M Envelope :=
  let params := sam_params business_name location_info in
  let* api_key := lift (dict_index params "api_key") in
  if negb (truthy api_key)
  then
    log WARNING "SAM.gov API key not found in environment variables" [];;
    ret {| source := "SAM.gov"; status := "API key required"; data := VNone |}
  else
    let* response := requests_call (sam_request params) in
    let* delay := lift (dict_index api_delays "sam") in
    sleep delay;;
    if status_code response =? 200
    then
      let* data := lift (json response) in
      let* entities := lift (py_get data "entityData" (VList [])) in
      if truthy entities
      then
        let* entity := lift (py_index0 entities) in
        lift (sam_found entity)
      else ret {| source := "SAM.gov"; status := "not_found"; data := VNone |}
    else ret {| source := "SAM.gov"; status := "not_found"; data := VNone |}.

Definition search_sam_gov (business_name : pyval)
    (location_info : option pydict) : M Envelope :=
  try_except
    (search_sam_gov_body business_name location_info)
    (fun e =>
       log ERROR "Error searching SAM.gov for {business_name}: {e}"
           [business_name; VStr (str_exn e)];;
       ret {| source := "SAM.gov"; status := "error";
              data := VStr (str_exn e) |}).

(** *** search_usaspending *)

Definition usaspending_payload (business_name : pyval) : pyval :=
  VDict
    [("filters",
      VDict [("recipient_search_text", VList [business_name]);
             ("award_type_codes",
              VList [VStr "A"; VStr "B"; VStr "C"; VStr "D"])]);
     ("fields",
      VList [VStr "Award ID"; VStr "Recipient Name"; VStr "Award Amount";
             VStr "Award Type"; VStr "Period of Performance Start Date"]);
     ("sort", VStr "Award Amount");
     ("order", VStr "desc");
     ("limit", VInt 10)].

(** The loop [for award in results]: the running [total_amount] and the
    list [awards] built so far. *)
Fixpoint collect_awards (results : list pyval) (total_amount : pyval)
    (awards : list pyval) : result (pyval * list pyval) :=
  match results with
  | [] => Ok (total_amount, awards)
  | award :: rest =>
      let? award_amount := py_get award "Award Amount" (VInt 0) in
      let? total_amount := py_iadd total_amount award_amount in
      let? award_id := py_get award "Award ID" VNone in
      let? recipient_name := py_get award "Recipient Name" VNone in
      let? award_type := py_get award "Award Type" VNone in
      let? start_date :=
        py_get award "Period of Performance Start Date" VNone in
      collect_awards rest total_amount
        (awards ++ [VDict [("award_id", award_id);
                           ("recipient_name", recipient_name);
                           ("amount", award_amount);
                           ("type", award_type);
                           ("start_date", start_date)]])
  end.

Definition usaspending_found (results : pyval) : result Envelope :=
  let? results := py_iter results in
  let? collected := collect_awards results (VInt 0) [] in
  let total_amount := fst collected in
  let awards := snd collected in
  Ok {| source := "USAspending.gov";
        status := "found";
        data := VDict [("total_awards", VInt (Z.of_nat (length awards)));
                       ("total_amount", total_amount);
                       ("awards", VList (firstn 5 awards))] |}.

(** [requests.post(base_url, json=payload, timeout=30)]. *)
Definition usaspending_request (business_name : pyval) : request :=
  let base_url :=
    "https://api.usaspending.gov/api/v2/search/spending_by_award/" in
  Request "POST" base_url [] (usaspending_payload business_name) [] 30.

Definition search_usaspending_body (business_name : pyval) : M Envelope :=
  let* response := requests_call (usaspending_request business_name) in
  let* delay := lift (dict_index api_delays "usaspending") in
  sleep delay;;
  if status_code response =? 200
  then
    let* data := lift (json response) in
    let* results := lift (py_get data "results" (VList [])) in
    if truthy results
    then lift (usaspending_found results)
    else ret {| source := "USAspending.gov"; status := "not_found";
                data := VNone |}
  else ret {| source := "USAspending.gov"; status := "not_found";
              data := VNone |}.

Definition search_usaspending (business_name : pyval) : M Envelope :=
  try_except
    (search_usaspending_body business_name)
    (fun e =>
       log ERROR "Error searching USAspending.gov for {business_name}: {e}"
           [business_name; VStr (str_exn e)];;
       ret {| source := "USAspending.gov"; status := "error";
              data := VStr (str_exn e) |}).

(** *** search_edgar_sec *)

(** The loop [for cik, company_data in companies.items()]: the list
    [matches] built so far. *)
Fixpoint scan_companies (search_name : string) (items : pydict)
    (matches : list Match) : result (list Match) :=
  match items with
  | [] => Ok matches
  | (_, company_data) :: rest =>
      match company_data with
      | VDict d =>
          let? company_name := py_lower (dict_get d "title" (VStr "")) in
          let ticker := dict_get d "ticker" (VStr "") in
          if str_in search_name company_name || str_in company_name search_name
          then
            scan_companies search_name rest
              (matches ++ [{| cik := dict_get d "cik_str" VNone;
                              ticker := ticker;
                              company_name := dict_get d "title" VNone;
                              match_score :=
                                word_overlap search_name company_name |}])
          else scan_companies search_name rest matches
      | _ => scan_companies search_name rest matches
      end
  end.

Definition edgar_result (matches : list Match) : result Envelope :=
  match matches with
  | [] => Ok {| source := "SEC EDGAR"; status := "not_found"; data := VNone |}
  | _ :: _ =>
      let matches := sort_desc matches in
      match matches with
      | best :: _ =>
          Ok {| source := "SEC EDGAR";
                status := "found";
                data :=
                  VDict [("matches_found", VInt (Z.of_nat (length matches)));
                         ("best_match", match_to_py best);
                         ("all_matches",
                          VList (map match_to_py (firstn 3 matches)))] |}
      | [] => Raise (Exn "IndexError" "list index out of range")
      end
  end.

(** [requests.get(base_url, headers=headers, timeout=30)]. *)
Definition edgar_request : request :=
  let base_url := "https://www.sec.gov/files/company_tickers.json" in
  let headers :=
    [("User-Agent", "Business Search Tool contact@yourcompany.com")] in
  Request "GET" base_url [] VNone headers 30.

Definition search_edgar_sec_body (business_name : pyval) : M Envelope :=
  let* response := requests_call edgar_request in
  let* delay := lift (dict_index api_delays "edgar") in
  sleep delay;;
  if status_code response =? 200
  then
    let* companies := lift (json response) in
    let* search_name := lift (py_lower business_name) in
    let* items := lift (py_items companies) in
    let* matches := lift (scan_companies search_name items []) in
    lift (edgar_result matches)
  else ret {| source := "SEC EDGAR"; status := "not_found"; data := VNone |}.

Definition search_edgar_sec (business_name : pyval) : M Envelope :=
  try_except
    (search_edgar_sec_body business_name)
    (fun e =>
       log ERROR "Error searching SEC EDGAR for {business_name}: {e}"
           [business_name; VStr (str_exn e)];;
       ret {| source := "SEC EDGAR"; status := "error";
              data := VStr (str_exn e) |}).

(** *** search_sba_data *)

Definition search_sba_data (business_name : pyval)
    (location_info : option pydict) : M Envelope :=
  try_except
    (ret {| source := "SBA Data";
            status := "requires_csv_processing";
            data :=
              VDict
                [("note",
                  VStr "SBA data requires downloading CSV files and local processing");
                 ("datasets_to_check",
                  VList [VStr "PPP Loan Data";
                         VStr "8(a) Business Development";
                         VStr "HUBZone Certified Companies";
                         VStr "Women-Owned Small Business";
                         VStr "Service-Disabled Veteran-Owned"])] |})
    (fun e =>
       log ERROR "Error processing SBA data for {business_name}: {e}"
           [business_name; VStr (str_exn e)];;
       ret {| source := "SBA Data"; status := "error";
              data := VStr (str_exn e) |}).

(** *** search_business_across_datasets *)

(** The envelope the dispatch loop appends when [search_func()] raised. *)
Definition dispatch_error (dataset_name : string) (e : exn) : Envelope :=
  {| source := dataset_name; status := "error"; data := VStr (str_exn e) |}.

(** The loop [for dataset_name, search_func in datasets_to_search], on
    the list [business_results['datasets_searched']] built so far. The
    logger line of the [try] reads the two keys every envelope has. *)
Fixpoint run_datasets (datasets_to_search : list (string * M Envelope))
    (searched : list Envelope) : M (list Envelope) :=
  match datasets_to_search with
  | [] => ret searched
  | (dataset_name, search_func) :: rest =>
      let* searched :=
        try_except
          (let* result := search_func in
           let searched := searched ++ [result] in
           log INFO "Completed search in {result['source']}: {result['status']}"
               [VStr (source result); VStr (status result)];;
           ret searched)
          (fun e =>
             log ERROR "Failed to search {dataset_name}: {e}"
                 [VStr dataset_name; VStr (str_exn e)];;
             ret (searched ++ [dispatch_error dataset_name e])) in
      run_datasets rest searched
  end.

Definition datasets_to_search (business_name : pyval) (location_info : pydict)
  : list (string * M Envelope) :=
  [("sam_gov", search_sam_gov business_name (Some location_info));
   ("usaspending", search_usaspending business_name);
   ("edgar_sec", search_edgar_sec business_name);
   ("sba_data", search_sba_data business_name (Some location_info))].

Definition search_business_across_datasets (business_info : pydict)
  : M AggregatedRecord :=
  let business_name := dict_get business_info "business_name" (VStr "") in
  let location_info :=
    [("city", dict_get business_info "city" VNone);
     ("state", dict_get business_info "state" VNone);
     ("zip", dict_get business_info "zip" VNone)] in
  log INFO "Searching for: {business_name}" [business_name];;
  let* timestamp := now_iso in
  let* searched :=
    run_datasets (datasets_to_search business_name location_info) [] in
  ret {| business_name := business_name;
         location := location_info;
         search_timestamp := timestamp;
         datasets_searched := searched |}.

(** *** process_businesses *)

(** The loop [for idx, business in enumerate(businesses, 1)], on the list
    [all_results] built so far. *)
Fixpoint process_loop (total_businesses idx : Z) (businesses : list pydict)
    (all_results : list BusinessResult) : M (list BusinessResult) :=
  match businesses with
  | [] => ret all_results
  | business :: rest =>
      log INFO
        "Processing business {idx}/{total_businesses}: {business.get('business_name', 'Unknown')}"
        [VInt idx; VInt total_businesses;
         dict_get business "business_name" (VStr "Unknown")];;
      let* all_results :=
        try_except
          (let* result := search_business_across_datasets business in
           let all_results := all_results ++ [Full result] in
           sleep (VInt 1);;
           ret all_results)
          (fun e =>
             log ERROR
               "Error processing business {business.get('business_name')}: {e}"
               [dict_get business "business_name" VNone; VStr (str_exn e)];;
             let* timestamp := now_iso in
             ret (all_results
                    ++ [Degenerate (dict_get business "business_name" VNone)
                          (str_exn e) timestamp])) in
      process_loop total_businesses (idx + 1) rest all_results
  end.

Definition process_businesses (businesses : list pydict)
  : M (list BusinessResult) :=
  process_loop (Z.of_nat (length businesses)) 1 businesses [].

(** *** generate_report and main *)

(** [with open(path, 'w') as f: f.write(content)]. *)
Definition write_file (path : string) (content : file_content) : M unit :=
  fun t =>
    match open_for_writing w path t with
    | Ok _ => (Ok tt, t ++ [EvWrite path content])
    | Raise e => (Raise e, t)
    end.

(** The report text is string templating over the results; the model
    keeps what it is made from. The text is built before the file is
    opened, so a location line that cannot be joined raises with
    nothing written. *)
Definition generate_report (results : list BusinessResult)
    (output_file : option string) : M string :=
  let* output_file :=
    match output_file with
    | Some name =>
        if truthy (VStr name) then ret name
        else
          let* stamp := strftime "%Y%m%d_%H%M%S" in
          ret ("business_search_report_" +:+ stamp +:+ ".html")
    | None =>
        let* stamp := strftime "%Y%m%d_%H%M%S" in
        ret ("business_search_report_" +:+ stamp +:+ ".html")
    end in
  let* generated_on := strftime "%Y-%m-%d %H:%M:%S" in
  let* _ := lift (report_locations results) in
  write_file output_file (HtmlReport results generated_on);;
  log INFO "Report generated: {output_file}" [VStr output_file];;
  ret output_file.

Definition sample_data : DataFrame :=
  {| columns := ["business_name"; "city"; "state"];
     rows :=
       [[VStr "Microsoft Corporation"; VStr "Redmond"; VStr "WA"];
        [VStr "Apple Inc"; VStr "Cupertino"; VStr "CA"];
        [VStr "Small Business Example LLC"; VStr "Chicago"; VStr "IL"]] |}.

Definition main : M unit :=
  let csv_file := "business_list.csv" in
  let* present := (fun t => (Ok (path_exists w csv_file t), t)) in
  (if negb present
   then
     write_file csv_file (CsvOf sample_data);;
     log INFO "Created sample CSV file: {csv_file}" [VStr csv_file]
   else ret tt);;
  let* businesses := read_business_csv csv_file in
  match businesses with
  | _ :: _ =>
      log INFO "Starting search for {len(businesses)} businesses..."
          [VInt (Z.of_nat (length businesses))];;
      let* results := process_businesses businesses in
      let* report_file := generate_report results None in
      let* stamp := strftime "%Y%m%d_%H%M%S" in
      let json_file := "business_search_results_" +:+ stamp +:+ ".json" in
      write_file json_file (JsonDump results);;
      log INFO "Search complete! Results saved to:" [];;
      log INFO "  HTML Report: {report_file}" [VStr report_file];;
      log INFO "  JSON Data: {json_file}" [VStr json_file]
  | [] => log ERROR "No businesses found in CSV file" []
  end.

End BusinessDatasetSearcher.

Arguments has_column : simpl never.
Arguments sam_request : simpl never.
Arguments usaspending_request : simpl never.
Arguments edgar_request : simpl never.

(** ** Vocabulary of the properties *)

(** The network calls recorded in a trace. *)
Definition requests_of (t : list event) : list request :=
  omap (fun ev => match ev with EvRequest r => Some r | _ => None end) t.

(** Python's [sum(values)]: [+] from the left, starting at the int 0. *)
Definition py_sum (values : list pyval) : result pyval :=
  fold_left (fun acc v => let? total := acc in py_add total v)
            values (Ok (VInt 0)).

(** The ['Award Amount'] of an award of the spending source, 0 when the
    key is absent. *)
Definition award_amount (award : pydict) : pyval :=
  dict_get award "Award Amount" (VInt 0).

(** The entry of the [awards] list made from one returned award. *)
Definition award_entry (award : pydict) : pyval :=
  VDict [("award_id", dict_get award "Award ID" VNone);
         ("recipient_name", dict_get award "Recipient Name" VNone);
         ("amount", award_amount award);
         ("type", dict_get award "Award Type" VNone);
         ("start_date",
          dict_get award "Period of Performance Start Date" VNone)].

(** [sub] occurs in [s] as a run of consecutive characters. *)
Definition substring_of (sub s : string) : Prop :=
  exists before after, s = before +:+ sub +:+ after.

(** A directory whose issuer entries carry a string title, or none. *)
Definition titled (company_data : pyval) : Prop :=
  match company_data with
  | VDict d =>
      match dict_lookup d "title" with
      | Some (VStr _) | None => True
      | Some _ => False
      end
  | _ => True
  end.

(** The candidate the scan makes of a directory entry whose lowered
    title is [company_name]. *)
Definition candidate (search_name company_name : string) (d : pydict)
  : Match :=
  {| cik := dict_get d "cik_str" VNone;
     ticker := dict_get d "ticker" (VStr "");
     company_name := dict_get d "title" VNone;
     match_score := word_overlap search_name company_name |}.

(** The envelopes the tool can produce for a business: what one of the
    four adapters returns, in some world, on some input, and what the
    dispatch loop makes of a failure. *)
Inductive produced : Envelope -> Prop :=
| produced_sam w name loc t env t' :
    search_sam_gov w name loc t = (Ok env, t') -> produced env
| produced_usaspending w name t env t' :
    search_usaspending w name t = (Ok env, t') -> produced env
| produced_edgar w name t env t' :
    search_edgar_sec w name t = (Ok env, t') -> produced env
| produced_sba name loc t env t' :
    search_sba_data name loc t = (Ok env, t') -> produced env
| produced_dispatch dataset_name e :
    produced (dispatch_error dataset_name e).

(** The identity fields the dispatch copies from an input row. *)
Definition record_of (business_info : pydict) (r : BusinessResult) : Prop :=
  exists rec,
    r = Full rec
    /\ business_name rec = dict_get business_info "business_name" (VStr "")
    /\ location rec =
         [("city", dict_get business_info "city" VNone);
          ("state", dict_get business_info "state" VNone);
          ("zip", dict_get business_info "zip" VNone)]
    /\ length (datasets_searched rec) = 4%nat.

(** The three keys of an envelope as the adapter labelled [label] or the
    dispatch loop fills them: which payload goes with which status. *)
Definition well_shaped (label : string) (env : Envelope) : Prop :=
  source env = label
  /\ ((status env = "found" /\ exists d, data env = VDict d)
      \/ (status env = "not_found" /\ data env = VNone)
      \/ (status env = "API key required" /\ data env = VNone)
      \/ (status env = "requires_csv_processing"
          /\ exists d, data env = VDict d)
      \/ (status env = "error" /\ exists e, data env = VStr (str_exn e))).

(** The envelope the dispatch keeps for a dataset is what its search
    function returned, or the error envelope of what it raised. *)
Definition outcome_of (d : string * M Envelope) (env : Envelope) : Prop :=
  (exists t0 t1, snd d t0 = (Ok env, t1))
  \/ (exists e t0 t1, snd d t0 = (Raise e, t1)
       /\ env = {| source := fst d; status := "error";
                   data := VStr (str_exn e) |}).

(** Highest score first. *)
Definition ranked_before (a b : Match) : Prop :=
  (match_score b <= match_score a)%nat.

(** What the directory scan makes of one entry: a candidate when the
    entry is a dict whose lowered title contains the search name or is
    contained in it, nothing otherwise. *)
Definition selected (w : World) (search_name : string)
    (company_data : pyval) : option Match :=
  match company_data with
  | VDict d =>
      match dict_get d "title" (VStr "") with
      | VStr title =>
          if str_in search_name (lower w title)
             || str_in (lower w title) search_name
          then Some (candidate search_name (lower w title) d)
          else None
      | _ => None
      end
  | _ => None
  end.

(** *** The words of a name and the scan of the directory

    What the properties of the filings adapter say of the split of a
    name into words, of the score and of the order of the candidates,
    in their own terms; the proofs compare them with [split],
    [word_overlap], [scan_companies] and [sort_desc]. *)

(** A string in which no whitespace character occurs. *)
Definition spaceless (x : string) : Prop :=
  forall u, u ∈ whitespace -> ~ substring_of u x.

(** A string at the end of a word: empty, or starting with a whitespace
    character. *)
Definition at_boundary (s : string) : Prop :=
  s = "" \/ exists u rest, u ∈ whitespace /\ s = u +:+ rest.

(** The whitespace tokenization: [tokens s ws] when [ws] are, in order,
    the maximal non-empty runs of [s] free of whitespace. *)
Inductive tokens : string -> list string -> Prop :=
| tokens_end : tokens "" []
| tokens_space u s ws :
    u ∈ whitespace -> tokens s ws -> tokens (u +:+ s) ws
| tokens_word x s ws :
    x <> "" -> spaceless x -> at_boundary s -> tokens s ws ->
    tokens (x +:+ s) (x :: ws).

(** No whitespace character starts inside [x] when [s] follows it: what
    the scan of [split] knows of the word it is reading. *)
Definition clean (x s : string) : Prop :=
  forall before after u rest,
    u ∈ whitespace -> x = before +:+ after -> after <> "" ->
    after +:+ s <> u +:+ rest.

(** [n] distinct words occur in both names. *)
Definition shared_words (a b : string) (n : nat) : Prop :=
  exists wa wb common,
    tokens a wa /\ tokens b wb /\ NoDup common
    /\ (forall x, x ∈ common <-> x ∈ wa /\ x ∈ wb)
    /\ n = length common.

(** Two names, both lowered, match: one occurs in the other. *)
Definition names_match (search_name company_name : string) : Prop :=
  substring_of search_name company_name
  \/ substring_of company_name search_name.

(** The scan of the directory: [scanned w search_name items matches]
    when [matches] holds, in the order of [items], one candidate for
    each entry that is a dict and whose lowered title matches the
    search name; the candidate carries the entry's cik_str, ticker and
    title and the number of words the names share. *)
Inductive scanned (w : World) (search_name : string)
  : pydict -> list Match -> Prop :=
| scanned_end : scanned w search_name [] []
| scanned_not_a_dict key v items matches :
    (forall d, v <> VDict d) ->
    scanned w search_name items matches ->
    scanned w search_name ((key, v) :: items) matches
| scanned_no_match key d title items matches :
    dict_get d "title" (VStr "") = VStr title ->
    ~ names_match search_name (lower w title) ->
    scanned w search_name items matches ->
    scanned w search_name ((key, VDict d) :: items) matches
| scanned_match key d title items m matches :
    dict_get d "title" (VStr "") = VStr title ->
    names_match search_name (lower w title) ->
    cik m = dict_get d "cik_str" VNone ->
    ticker m = dict_get d "ticker" (VStr "") ->
    company_name m = dict_get d "title" VNone ->
    shared_words search_name (lower w title) (match_score m) ->
    scanned w search_name items matches ->
    scanned w search_name ((key, VDict d) :: items) (m :: matches).

(** The ranking: the candidates by descending score, those of equal
    score in the order of the scan. *)
Definition ranking (matches ranked : list Match) : Prop :=
  Permutation ranked matches
  /\ StronglySorted ranked_before ranked
  /\ forall k,
       List.filter (fun m => match_score m =? k)%nat ranked
       = List.filter (fun m => match_score m =? k)%nat matches.

(** ** Sample worlds *)

Definition unreachable : exn :=
  Exn "ConnectionError" "Failed to establish a new connection".

(** A sample of the case tables, [str.lower] on strings of ASCII and
    Latin-1 characters: the capital letters of ASCII and of the Latin-1
    supplement (U+00C0..U+00DE but the sign U+00D7) go to their small
    letters, every other character stays. *)
Fixpoint latin1_lower (s : string) : string :=
  match s with
  | EmptyString => EmptyString
  | String c s' =>
      if (nat_of_ascii c =? 195)%nat
      then
        match s' with
        | String c' s'' =>
            let n := nat_of_ascii c' in
            if ((128 <=? n) && (n <=? 158) && negb (n =? 151))%nat
            then String c (String (ascii_of_nat (n + 32)) (latin1_lower s''))
            else String c (latin1_lower s')
        | EmptyString => String c EmptyString
        end
      else String (lower_ascii c) (latin1_lower s')
  end.

(** A machine with the given environment, network and input file; the
    clock stands still and files can be written. *)
Definition world_of (env : string -> option string)
    (net : request -> result response) (csv : result DataFrame) : World :=
  {| getenv := env;
     unicode_lower := latin1_lower;
     http := fun r _ => net r;
     now_isoformat := fun _ => "2024-05-01T12:00:00";
     now_strftime := fun _ _ => "20240501_120000";
     path_exists := fun _ _ => true;
     read_csv := fun _ _ => csv;
     open_for_writing := fun _ _ => Ok tt |}.

Definition no_env : string -> option string := fun _ => None.

Definition offline : request -> result response := fun _ => Raise unreachable.

Definition no_file : result DataFrame :=
  Raise (Exn "FileNotFoundError" "No such file or directory").

(** An issuer directory with the entry of the spec's example. *)
Definition acme_items : pydict :=
  [("0", VDict [("cik_str", VInt 1234567); ("ticker", VStr "ACRK");
                ("title", VStr "Acme Rockets Inc")]);
   ("1", VDict [("cik_str", VInt 7654321); ("ticker", VStr "ZEN");
                ("title", VStr "Zenith Holdings")])].

Definition acme_directory : pyval := VDict acme_items.

(** Three awards, amounts as the source sends them. *)
Definition acme_awards : list pydict :=
  [[("Award ID", VStr "W911"); ("Recipient Name", VStr "ACME ROCKETS INC");
    ("Award Amount", VFloat 2500000.5); ("Award Type", VStr "D")];
   [("Award ID", VStr "N000"); ("Recipient Name", VStr "ACME ROCKETS INC");
    ("Award Amount", VInt 1000000); ("Award Type", VStr "C")];
   [("Award ID", VStr "FA86"); ("Recipient Name", VStr "ACME ROCKETS INC")]].

(** A network where the spending source answers with [acme_awards], the
    filings source with [acme_directory] and the entity registry fails. *)
Definition acme_net (r : request) : result response :=
  if String.eqb (req_url r)
       "https://api.usaspending.gov/api/v2/search/spending_by_award/"
  then Ok (Response 200
             (Ok (VDict [("results", VList (map VDict acme_awards))])))
  else if String.eqb (req_url r)
            "https://www.sec.gov/files/company_tickers.json"
  then Ok (Response 200 (Ok acme_directory))
  else Raise unreachable.

(** A network where every source answers 503 with an HTML error page. *)
Definition down_net (r : request) : result response :=
  Ok (Response 503 (Raise (Exn "JSONDecodeError" "Expecting value: line 1 column 1 (char 0)"))).

(** An input table without the [business_name] column. *)
Definition nameless_table : DataFrame :=
  {| columns := ["name"; "city"];
     rows := [[VStr "Acme Rockets Inc"; VStr "Mojave"]] |}.

(** The envelope of the stub adapter. *)
Definition sba_envelope : Envelope :=
  {| source := "SBA Data";
     status := "requires_csv_processing";
     data :=
       VDict
         [("note",
           VStr "SBA data requires downloading CSV files and local processing");
          ("datasets_to_check",
           VList [VStr "PPP Loan Data";
                  VStr "8(a) Business Development";
                  VStr "HUBZone Certified Companies";
                  VStr "Women-Owned Small Business";
                  VStr "Service-Disabled Veteran-Owned"])] |}.

(** ** The figures of the report *)

(** The parts of [generate_report] that compute: the summary statistics
    over the results and the class of a detail section. *)

(** One row of [dataset_stats]: the counters found, not_found, error. *)
Record Stats : Type := {
  stat_found : nat;
  stat_not_found : nat;
  stat_error : nat
}.

Definition no_stats : Stats :=
  {| stat_found := 0; stat_not_found := 0; stat_error := 0 |}.

(** [result.get('datasets_searched', [])]: a degenerate record has no
    such key. *)
Definition envelopes_of (r : BusinessResult) : list Envelope :=
  match r with
  | Full rec => datasets_searched rec
  | Degenerate _ _ _ => []
  end.

(** [status == s]. *)
Definition status_is (s : string) (env : Envelope) : bool :=
  String.eqb (status env) s.

(** The [if status == 'found' ... elif status == 'not_found' ... else]
    of the statistics loop. *)
Definition count_status (env : Envelope) (s : Stats) : Stats :=
  if status_is "found" env
  then {| stat_found := S (stat_found s);
          stat_not_found := stat_not_found s;
          stat_error := stat_error s |}
  else if status_is "not_found" env
  then {| stat_found := stat_found s;
          stat_not_found := S (stat_not_found s);
          stat_error := stat_error s |}
  else {| stat_found := stat_found s;
          stat_not_found := stat_not_found s;
          stat_error := S (stat_error s) |}.

(** [dataset_stats[dataset_name]] is created with zeros when absent, at
    the end of the dict, and the counter of the envelope's status goes
    up by one. *)
Fixpoint bump (env : Envelope) (dataset_stats : list (string * Stats))
  : list (string * Stats) :=
  match dataset_stats with
  | [] => [(source env, count_status env no_stats)]
  | (name, s) :: others =>
      if String.eqb name (source env)
      then (name, count_status env s) :: others
      else (name, s) :: bump env others
  end.

(** The inner loop [for dataset_result in ...]: the statistics and the
    flag [has_findings]. *)
Fixpoint tally (envs : list Envelope) (dataset_stats : list (string * Stats))
    (has_findings : bool) : list (string * Stats) * bool :=
  match envs with
  | [] => (dataset_stats, has_findings)
  | env :: rest =>
      tally rest (bump env dataset_stats)
            (if status_is "found" env then true else has_findings)
  end.

(** The outer loop [for result in results]. *)
Fixpoint summarize (results : list BusinessResult)
    (businesses_with_findings : nat) (dataset_stats : list (string * Stats))
  : nat * list (string * Stats) :=
  match results with
  | [] => (businesses_with_findings, dataset_stats)
  | r :: rest =>
      let tallied := tally (envelopes_of r) dataset_stats false in
      summarize rest
        (if snd tallied then S businesses_with_findings
         else businesses_with_findings)
        (fst tallied)
  end.

(** [total_businesses], [businesses_with_findings], [dataset_stats]. *)
Definition summary_statistics (results : list BusinessResult)
  : nat * nat * list (string * Stats) :=
  let summary := summarize results 0%nat [] in
  (length results, fst summary, snd summary).

(** [any(ds.get('status') == 'found' for ds in ...)] of a detail
    section. *)
Definition has_findings (r : BusinessResult) : bool :=
  existsb (status_is "found") (envelopes_of r).

(** ['found' if has_findings else 'not-found']. *)
Definition css_class (r : BusinessResult) : string :=
  if has_findings r then "found" else "not-found".

Arguments status_is : simpl never.

(** The status of an envelope is one the statistics loop counts as
    an error: neither found nor not_found. *)
Definition counted_as_error (env : Envelope) : bool :=
  negb (status_is "found" env) && negb (status_is "not_found" env).

(** The envelopes of all results, in order. *)
Definition all_envelopes (results : list BusinessResult) : list Envelope :=
  concat (map envelopes_of results).

(** The envelopes labelled with a source. *)
Definition from_source (name : string) (envs : list Envelope)
  : list Envelope :=
  List.filter (fun env => String.eqb (source env) name) envs.

(** The row of a source in the statistics, zeros when it has none. *)
Fixpoint stats_row (name : string) (dataset_stats : list (string * Stats))
  : Stats :=
  match dataset_stats with
  | [] => no_stats
  | (name', s) :: others =>
      if String.eqb name' name then s else stats_row name others
  end.

(** A value that is a string. *)
Definition is_str (v : pyval) : bool :=
  match v with
  | VStr _ => true
  | _ => false
  end.

(** The location the dispatch puts in the record of a row. *)
Definition location_of (business_info : pydict) : pydict :=
  [("city", dict_get business_info "city" VNone);
   ("state", dict_get business_info "state" VNone);
   ("zip", dict_get business_info "zip" VNone)].

(** A value that takes part in arithmetic. *)
Definition is_number (v : pyval) : bool :=
  match v with
  | VBool _ | VInt _ | VFloat _ => true
  | _ => false
  end.

(** The requests the dispatch of one business sends, in order. *)
Definition dispatch_requests (w : World) (business_info : pydict)
  : list request :=
  let name := dict_get business_info "business_name" (VStr "") in
  let params := sam_params w name (Some (location_of business_info)) in
  (if truthy (VStr (default "" (getenv w "SAM_API_KEY")))
   then [sam_request params] else [])
  ++ [usaspending_request name; edgar_request].

(** The files written in a trace. *)
Definition writes_of (t : list event) : list string :=
  omap (fun ev => match ev with EvWrite path _ => Some path | _ => None end) t.

(** The envelopes of a record of the pipeline: one per source, in
    order, the last one the stub's. *)
Definition pipeline_record (r : BusinessResult) : Prop :=
  exists rec e1 e2 e3,
    r = Full rec
    /\ datasets_searched rec = [e1; e2; e3; sba_envelope]
    /\ source e1 = "SAM.gov"
    /\ source e2 = "USAspending.gov"
    /\ source e3 = "SEC EDGAR".

(** An input table with the column and no row. *)
Definition empty_table : DataFrame :=
  {| columns := ["business_name"; "city"]; rows := [] |}.

(** An environment with an entity-registry key. *)
Definition with_key : string -> option string :=
  fun name => if String.eqb name "SAM_API_KEY" then Some "DEMO-KEY" else None.

(** A network where every source answers 200 with an empty result: no
    entity, no award, an empty directory. *)
Definition empty_net (r : request) : result response :=
  Ok (Response 200 (Ok (VDict []))).

(** One registered entity, as the entity registry describes it. *)
Definition acme_entity : pydict :=
  [("entityRegistration",
    VDict [("ueiSAM", VStr "ACME12345678"); ("cageCode", VStr "1AB23");
           ("registrationStatus", VStr "Active")]);
   ("coreData", VDict [("legalBusinessName", VStr "ACME ROCKETS INC")]);
   ("naicsInformation",
    VDict [("primaryNaics",
            VList [VDict [("naicsCode", VStr "336414")];
                   VDict [("naicsCode", VStr "336415")]])])].

(** A network where the entity registry answers with [acme_entity] and
    a second entity. *)
Definition registry_net (r : request) : result response :=
  Ok (Response 200
        (Ok (VDict [("entityData",
                     VList [VDict acme_entity; VDict []])]))).

(** An award whose amount the source left empty. *)
Definition unpriced_awards : list pydict :=
  [[("Award ID", VStr "W911"); ("Award Amount", VInt 1000000)];
   [("Award ID", VStr "N000"); ("Award Amount", VNone)]].

Definition unpriced_net (r : request) : result response :=
  Ok (Response 200
        (Ok (VDict [("results", VList (map VDict unpriced_awards))]))).

(** A network whose filings source answers with the given directory. *)
Definition directory_net (items : pydict) (r : request) : result response :=
  Ok (Response 200 (Ok (VDict items))).

(** A directory in which an entry carries a number for a title. *)
Definition numbered_items : pydict :=
  [("0", VDict [("cik_str", VInt 1234567); ("ticker", VStr "ACRK");
                ("title", VStr "Acme Rockets Inc")]);
   ("1", VDict [("cik_str", VInt 7); ("ticker", VStr "SEVN");
                ("title", VInt 7)])].

(** A directory with four issuers of the same score for Acme Rockets. *)
Definition crowded_items : pydict :=
  [("0", VDict [("cik_str", VInt 1); ("ticker", VStr "ACRA");
                ("title", VStr "Acme Rockets One")]);
   ("1", VDict [("cik_str", VInt 2); ("ticker", VStr "ACRB");
                ("title", VStr "Acme Rockets Two")]);
   ("2", VDict [("cik_str", VInt 3); ("ticker", VStr "ACRC");
                ("title", VStr "Acme Rockets Three")]);
   ("3", VDict [("cik_str", VInt 1234567); ("ticker", VStr "ACRK");
                ("title", VStr "Acme Rockets Inc")])].

(** The names ECOLE and ecole nationale, the first letter with its
    acute accent: U+00C9 and U+00E9. *)
Definition ecole_capitals : string := utf8 [195; 137] +:+ "COLE".
Definition ecole_nationale : string := utf8 [195; 169] +:+ "cole nationale".

Definition ecole_items : pydict :=
  [("0", VDict [("cik_str", VInt 42); ("ticker", VStr "ECOL");
                ("title", VStr ecole_nationale)])].

(** The candidates of [crowded_items] for Acme Rockets. *)
Definition crowded_matches : list Match :=
  [{| cik := VInt 1; ticker := VStr "ACRA";
      company_name := VStr "Acme Rockets One"; match_score := 2 |};
   {| cik := VInt 2; ticker := VStr "ACRB";
      company_name := VStr "Acme Rockets Two"; match_score := 2 |};
   {| cik := VInt 3; ticker := VStr "ACRC";
      company_name := VStr "Acme Rockets Three"; match_score := 2 |};
   {| cik := VInt 1234567; ticker := VStr "ACRK";
      company_name := VStr "Acme Rockets Inc"; match_score := 2 |}].

(** The name [generate_report] gives the report when it is called at
    the trace [t]. *)
Definition report_name (w : World) (output_file : option string)
    (t : list event) : string :=
  match output_file with
  | Some name =>
      if truthy (VStr name) then name
      else "business_search_report_"
           +:+ now_strftime w "%Y%m%d_%H%M%S" t +:+ ".html"
  | None =>
      "business_search_report_"
      +:+ now_strftime w "%Y%m%d_%H%M%S" t +:+ ".html"
  end.

(** A row whose zip code the reader took for a number. *)
Definition numeric_zip_row : pydict :=
  [("business_name", VStr "Acme Rockets Inc"); ("city", VStr "Mojave");
   ("state", VStr "CA"); ("zip", VInt 93501)].

Definition numeric_zip_table : DataFrame :=
  {| columns := ["business_name"; "city"; "state"; "zip"];
     rows := [[VStr "Acme Rockets Inc"; VStr "Mojave"; VStr "CA";
               VInt 93501]] |}.

(** A run of the pipeline that pauses after every business: from the
    trace [t], each business in turn adds its processing line, the
    events of its dispatch and then a pause of one second, and the run
    ends with the trace [t']. *)
Inductive pauses_after_each (w : World) (total : Z)
  : Z -> list pydict -> list event -> list event -> Prop :=
| pauses_done idx t : pauses_after_each w total idx [] t t
| pauses_next idx business rest t rec t1 t' :
    search_business_across_datasets w business
      (t ++ [EvLog INFO
               "Processing business {idx}/{total_businesses}: {business.get('business_name', 'Unknown')}"
               [VInt idx; VInt total;
                dict_get business "business_name" (VStr "Unknown")]])
    = (Ok rec, t1) ->
    pauses_after_each w total (idx + 1) rest (t1 ++ [EvSleep (VInt 1)]) t' ->
    pauses_after_each w total idx (business :: rest) t t'.

(** ** Proofs *)

Ltac run :=
  unfold try_except, bind, lift, ret, sleep, log, emit, requests_call,
    now_iso in *;
  simpl in *.

Ltac raised := simpl; intros; discriminate.

Ltac shape_found :=
  split; [split; [reflexivity
                 | left; split; [reflexivity | eexists; reflexivity]]
         | discriminate].
Ltac shape_not_found :=
  split; [split; [reflexivity | right; left; split; reflexivity]
         | discriminate].
Ltac shape_error :=
  split; [reflexivity
         | do 4 right; split; [reflexivity | eexists; reflexivity]].

Lemma rbind_ok {A B} (r : result A) (k : A -> result B) b :
  rbind r k = Ok b -> exists a, r = Ok a /\ k a = Ok b.
Proof. destruct r; simpl; intros H; [eauto | discriminate]. Qed.

(** *** What each adapter returns *)

Lemma sam_found_shape entity env :
  sam_found entity = Ok env ->
  well_shaped "SAM.gov" env /\ status env <> "error".
Proof.
  unfold sam_found. intros H.
  repeat (apply rbind_ok in H as (? & _ & H)).
  injection H as <-. shape_found.
Qed.

Lemma search_sam_gov_body_shape w name loc t env t' :
  search_sam_gov_body w name loc t = (Ok env, t') ->
  well_shaped "SAM.gov" env /\ status env <> "error".
Proof.
  unfold search_sam_gov_body. run.
  destruct (dict_index (sam_params w name loc) "api_key") as [key|e];
    [simpl | raised].
  destruct (truthy key); simpl.
  2: { intros [= <- _].
       split; [| discriminate].
       split; [reflexivity | right; right; left; split; reflexivity]. }
  destruct (http w (sam_request (sam_params w name loc)) t) as [resp|e];
    [simpl | raised].
  destruct (status_code resp =? 200).
  2: { intros [= <- _]. shape_not_found. }
  destruct (json resp) as [body|e]; [simpl | raised].
  destruct (py_get body "entityData" (VList [])) as [entities|e];
    [simpl | raised].
  destruct (truthy entities).
  2: { intros [= <- _]. shape_not_found. }
  destruct (py_index0 entities) as [entity|e]; [simpl | raised].
  destruct (sam_found entity) as [found|e] eqn:Hf; [| raised].
  intros [= <- _]. eapply sam_found_shape; eauto.
Qed.

Lemma usaspending_found_shape results env :
  usaspending_found results = Ok env ->
  well_shaped "USAspending.gov" env /\ status env <> "error".
Proof.
  unfold usaspending_found. intros H.
  apply rbind_ok in H as (l & _ & H).
  apply rbind_ok in H as (c & _ & H).
  injection H as <-. shape_found.
Qed.

Lemma search_usaspending_body_shape w name t env t' :
  search_usaspending_body w name t = (Ok env, t') ->
  well_shaped "USAspending.gov" env /\ status env <> "error".
Proof.
  unfold search_usaspending_body. run.
  destruct (http w (usaspending_request name) t) as [resp|e];
    [simpl | raised].
  destruct (status_code resp =? 200).
  2: { intros [= <- _]. shape_not_found. }
  destruct (json resp) as [body|e]; [simpl | raised].
  destruct (py_get body "results" (VList [])) as [results|e];
    [simpl | raised].
  destruct (truthy results).
  2: { intros [= <- _]. shape_not_found. }
  destruct (usaspending_found results) as [found|e] eqn:Hf; [| raised].
  intros [= <- _]. eapply usaspending_found_shape; eauto.
Qed.

Lemma edgar_result_shape matches env :
  edgar_result matches = Ok env ->
  well_shaped "SEC EDGAR" env /\ status env <> "error".
Proof.
  unfold edgar_result. destruct matches as [|m ms].
  - intros [= <-]. shape_not_found.
  - destruct (sort_desc (m :: ms)) as [|best rest]; [discriminate |].
    intros [= <-]. shape_found.
Qed.

Lemma search_edgar_sec_body_shape w name t env t' :
  search_edgar_sec_body w name t = (Ok env, t') ->
  well_shaped "SEC EDGAR" env /\ status env <> "error".
Proof.
  unfold search_edgar_sec_body. run.
  destruct (http w edgar_request t) as [resp|e]; [simpl | raised].
  destruct (status_code resp =? 200).
  2: { intros [= <- _]. shape_not_found. }
  destruct (json resp) as [companies|e]; [simpl | raised].
  destruct (py_lower w name) as [search_name|e]; [simpl | raised].
  destruct (py_items companies) as [items|e]; [simpl | raised].
  destruct (scan_companies w search_name items []) as [matches|e];
    [simpl | raised].
  destruct (edgar_result matches) as [found|e] eqn:Hf; [| raised].
  intros [= <- _]. eapply edgar_result_shape; eauto.
Qed.

(** The adapters catch what their bodies raise: they always return. *)
Lemma search_sam_gov_returns w name loc t :
  exists env t', search_sam_gov w name loc t = (Ok env, t')
                 /\ well_shaped "SAM.gov" env.
Proof.
  unfold search_sam_gov, try_except.
  destruct (search_sam_gov_body w name loc t) as [[env|e] t1] eqn:Hb.
  - exists env, t1. split; [reflexivity |].
    eapply search_sam_gov_body_shape; eauto.
  - do 2 eexists. split; [reflexivity | shape_error].
Qed.

Lemma search_usaspending_returns w name t :
  exists env t', search_usaspending w name t = (Ok env, t')
                 /\ well_shaped "USAspending.gov" env.
Proof.
  unfold search_usaspending, try_except.
  destruct (search_usaspending_body w name t) as [[env|e] t1] eqn:Hb.
  - exists env, t1. split; [reflexivity |].
    eapply search_usaspending_body_shape; eauto.
  - do 2 eexists. split; [reflexivity | shape_error].
Qed.

Lemma search_edgar_sec_returns w name t :
  exists env t', search_edgar_sec w name t = (Ok env, t')
                 /\ well_shaped "SEC EDGAR" env.
Proof.
  unfold search_edgar_sec, try_except.
  destruct (search_edgar_sec_body w name t) as [[env|e] t1] eqn:Hb.
  - exists env, t1. split; [reflexivity |].
    eapply search_edgar_sec_body_shape; eauto.
  - do 2 eexists. split; [reflexivity | shape_error].
Qed.

Lemma search_sba_data_returns name loc t :
  exists env, search_sba_data name loc t = (Ok env, t)
              /\ well_shaped "SBA Data" env.
Proof.
  eexists; split; [reflexivity |].
  split; [reflexivity
         | do 3 right; left; split; [reflexivity | eexists; reflexivity]].
Qed.

Lemma well_shaped_payload label env :
  well_shaped label env ->
  (data env <> VNone <->
     status env = "found" \/ status env = "requires_csv_processing"
     \/ status env = "error")
  /\ (data env = VNone <->
        status env = "not_found" \/ status env = "API key required").
Proof.
  intros [_ [[Hs [d Hd]] | [[Hs Hd] | [[Hs Hd] | [[Hs [d Hd]] | [Hs [e Hd]]]]]]];
    rewrite Hs, Hd; (split; split);
    try solve [ intros _; auto
              | intros H; exfalso; by apply H
              | intros [H | [H | H]]; discriminate
              | intros [H | H]; discriminate
              | intros; discriminate ].
Qed.

(** *** The dispatch loop and the pipeline *)

Lemma run_datasets_cons name (f : M Envelope) rest searched t :
  run_datasets ((name, f) :: rest) searched t =
  match f t with
  | (Ok r, t1) =>
      run_datasets rest (searched ++ [r])
        (t1 ++ [EvLog INFO
                  "Completed search in {result['source']}: {result['status']}"
                  [VStr (source r); VStr (status r)]])
  | (Raise e, t1) =>
      run_datasets rest (searched ++ [dispatch_error name e])
        (t1 ++ [EvLog ERROR "Failed to search {dataset_name}: {e}"
                  [VStr name; VStr (str_exn e)]])
  end.
Proof. simpl. run. destruct (f t) as [[r|e] t1]; reflexivity. Qed.

Lemma run_datasets_isolated datasets :
  forall searched t,
  exists envs t',
    run_datasets datasets searched t = (Ok (searched ++ envs), t')
    /\ Forall2 outcome_of datasets envs.
Proof.
  induction datasets as [|[name f] rest IH]; intros searched t.
  - exists [], t. split; [by rewrite app_nil_r | constructor].
  - rewrite run_datasets_cons. destruct (f t) as [[r|e] t1] eqn:Hf.
    + edestruct IH as (envs & t' & -> & Hall).
      exists (r :: envs), t'. split; [by rewrite <- app_assoc |].
      constructor; [left; eauto | exact Hall].
    + edestruct IH as (envs & t' & -> & Hall).
      exists (dispatch_error name e :: envs), t'.
      split; [by rewrite <- app_assoc |].
      constructor; [right; exists e, t, t1; eauto | exact Hall].
Qed.

Lemma run_real_datasets w name loc t :
  exists e1 e2 e3 e4 t',
    run_datasets (datasets_to_search w name loc) [] t
      = (Ok [e1; e2; e3; e4], t')
    /\ well_shaped "SAM.gov" e1 /\ well_shaped "USAspending.gov" e2
    /\ well_shaped "SEC EDGAR" e3 /\ well_shaped "SBA Data" e4.
Proof.
  unfold datasets_to_search.
  destruct (search_sam_gov_returns w name (Some loc) t)
    as (e1 & t1 & H1 & S1).
  rewrite run_datasets_cons, H1.
  match goal with |- context [run_datasets _ _ ?t] =>
    destruct (search_usaspending_returns w name t) as (e2 & t2 & H2 & S2) end.
  rewrite run_datasets_cons, H2.
  match goal with |- context [run_datasets _ _ ?t] =>
    destruct (search_edgar_sec_returns w name t) as (e3 & t3 & H3 & S3) end.
  rewrite run_datasets_cons, H3.
  match goal with |- context [run_datasets _ _ ?t] =>
    destruct (search_sba_data_returns name (Some loc) t) as (e4 & H4 & S4) end.
  rewrite run_datasets_cons, H4.
  exists e1, e2, e3, e4. eexists. split; [reflexivity | auto].
Qed.

Lemma search_business_returns w business_info t :
  exists rec t',
    search_business_across_datasets w business_info t = (Ok rec, t')
    /\ business_name rec = dict_get business_info "business_name" (VStr "")
    /\ location rec =
         [("city", dict_get business_info "city" VNone);
          ("state", dict_get business_info "state" VNone);
          ("zip", dict_get business_info "zip" VNone)]
    /\ Forall2 well_shaped
         ["SAM.gov"; "USAspending.gov"; "SEC EDGAR"; "SBA Data"]
         (datasets_searched rec).
Proof.
  unfold search_business_across_datasets, bind, log, emit, now_iso, ret.
  match goal with
  | |- context [run_datasets (datasets_to_search w ?n ?l) [] ?t0] =>
      destruct (run_real_datasets w n l t0)
        as (e1 & e2 & e3 & e4 & t' & H & S1 & S2 & S3 & S4)
  end.
  rewrite H. do 2 eexists. split; [reflexivity |]. simpl.
  split; [reflexivity |]. split; [reflexivity |].
  repeat (constructor; [assumption |]). constructor.
Qed.

Lemma process_loop_cons w total idx business rest all_results t :
  process_loop w total idx (business :: rest) all_results t =
  match search_business_across_datasets w business
          (t ++ [EvLog INFO
                   "Processing business {idx}/{total_businesses}: {business.get('business_name', 'Unknown')}"
                   [VInt idx; VInt total;
                    dict_get business "business_name" (VStr "Unknown")]]) with
  | (Ok r, t1) =>
      process_loop w total (idx + 1) rest (all_results ++ [Full r])
        (t1 ++ [EvSleep (VInt 1)])
  | (Raise e, t1) =>
      process_loop w total (idx + 1) rest
        (all_results
           ++ [Degenerate (dict_get business "business_name" VNone) (str_exn e)
                 (now_isoformat w
                    (t1 ++ [EvLog ERROR
                              "Error processing business {business.get('business_name')}: {e}"
                              [dict_get business "business_name" VNone;
                               VStr (str_exn e)]]))])
        (t1 ++ [EvLog ERROR
                  "Error processing business {business.get('business_name')}: {e}"
                  [dict_get business "business_name" VNone; VStr (str_exn e)]])
  end.
Proof.
  cbn [process_loop]. unfold bind, try_except, log, sleep, emit, ret, now_iso.
  destruct (search_business_across_datasets w business _) as [[r|e] t1];
    reflexivity.
Qed.

Lemma process_loop_returns w businesses :
  forall total idx all_results t,
  exists results t',
    process_loop w total idx businesses all_results t
      = (Ok (all_results ++ results), t')
    /\ Forall2 record_of businesses results.
Proof.
  induction businesses as [|business rest IH]; intros total idx acc t.
  - exists [], t. split; [by rewrite app_nil_r | constructor].
  - rewrite process_loop_cons.
    match goal with
    | |- context [search_business_across_datasets w business ?t0] =>
        destruct (search_business_returns w business t0)
          as (rec & t1 & -> & Hname & Hloc & Hshape)
    end.
    edestruct IH as (results & t' & -> & Hall).
    exists (Full rec :: results), t'. split; [by rewrite <- app_assoc |].
    constructor; [| exact Hall].
    exists rec. repeat split; try assumption.
    apply Forall2_length in Hshape. symmetry. exact Hshape.
Qed.

Lemma requests_of_log t lvl msg args :
  requests_of (t ++ [EvLog lvl msg args]) = requests_of t.
Proof. unfold requests_of. rewrite omap_app. simpl. apply app_nil_r. Qed.

(** ** The claims *)

(** C1. The dispatch never raises: whatever the search functions of the
    datasets do, [run_datasets] returns one envelope per dataset, each
    either the envelope its search function returned or the error
    envelope carrying the message of what it raised; and for every
    business the dispatch over the four adapters returns a record whose
    four envelopes are such outcomes of the four adapters. *)
Theorem dispatch_isolates_adapter_failures :
  (forall (datasets : list (string * M Envelope)) (t : list event),
     exists envs t',
       run_datasets datasets [] t = (Ok envs, t')
       /\ Forall2 outcome_of datasets envs)
  /\ (forall w business_info t,
        exists rec t',
          search_business_across_datasets w business_info t = (Ok rec, t')
          /\ length (datasets_searched rec) = 4%nat
          /\ Forall2 outcome_of
               (datasets_to_search w (business_name rec) (location rec))
               (datasets_searched rec)).
Proof.
  split.
  - intros datasets t.
    destruct (run_datasets_isolated datasets [] t) as (envs & t' & H & Hall).
    exists envs, t'. split; assumption.
  - intros w business_info t.
    unfold search_business_across_datasets, bind, log, emit, now_iso, ret.
    match goal with
    | |- context [run_datasets ?ds [] ?t0] =>
        destruct (run_datasets_isolated ds [] t0) as (envs & t' & H & Hall)
    end.
    rewrite H. do 2 eexists. split; [reflexivity |]. simpl.
    split; [| exact Hall].
    apply Forall2_length in Hall. symmetry. exact Hall.
Qed.

(** C2. For every list of input rows, [process_businesses] returns a
    list of the same length whose i-th element is the full record of the
    i-th row: its name, its location, four envelopes. *)
Theorem process_businesses_one_record_per_identity :
  forall w businesses t,
  exists results t',
    process_businesses w businesses t = (Ok results, t')
    /\ length results = length businesses
    /\ Forall2 record_of businesses results.
Proof.
  intros w businesses t. unfold process_businesses.
  destruct (process_loop_returns w businesses
              (Z.of_nat (length businesses)) 1 [] t)
    as (results & t' & H & Hall).
  exists results, t'. split; [exact H |]. split; [| exact Hall].
  apply Forall2_length in Hall. symmetry. exact Hall.
Qed.

(** C3. For every business and whatever the sources answer, the record
    of the dispatch has exactly four envelopes, labelled in order
    SAM.gov (entity registry), USAspending.gov (spending records), SEC
    EDGAR (public filings), SBA Data (small-business datasets). *)
Theorem dispatch_four_envelopes_in_source_order :
  forall w business_info t,
  exists rec t',
    search_business_across_datasets w business_info t = (Ok rec, t')
    /\ length (datasets_searched rec) = 4%nat
    /\ map source (datasets_searched rec)
       = ["SAM.gov"; "USAspending.gov"; "SEC EDGAR"; "SBA Data"].
Proof.
  intros w business_info t.
  destruct (search_business_returns w business_info t)
    as (rec & t' & H & _ & _ & Hshape).
  exists rec, t'. split; [exact H |].
  repeat match goal with
         | Hs : Forall2 _ (_ :: _) _ |- _ =>
             apply Forall2_cons_inv_l in Hs as (? & ? & [? _] & Hs & ->)
         | Hs : Forall2 _ [] _ |- _ => apply Forall2_nil_inv_l in Hs as ->
         end.
  simpl. split; [reflexivity | congruence].
Qed.

(** C4, as the code has it. The claim `payload is not None iff status ==
    found' fails: the stub adapter and every error envelope carry a
    payload too. What holds for every envelope produced by an adapter or
    by the dispatch-level catch: the payload is not [None] exactly for
    the statuses found, requires_csv_processing and error; it is [None]
    exactly for not_found and API key required. *)
Theorem payload_present_iff_found_stub_or_error :
  forall env,
    produced env ->
    (data env <> VNone <->
       status env = "found" \/ status env = "requires_csv_processing"
       \/ status env = "error")
    /\ (data env = VNone <->
          status env = "not_found" \/ status env = "API key required").
Proof.
  intros env Hp. destruct Hp as [w name loc t env t' H | w name t env t' H
                                | w name t env t' H | name loc t env t' H
                                | dataset_name e].
  - destruct (search_sam_gov_returns w name loc t) as (env' & t1 & H' & S).
    rewrite H in H'. injection H' as -> _.
    eapply well_shaped_payload; eauto.
  - destruct (search_usaspending_returns w name t) as (env' & t1 & H' & S).
    rewrite H in H'. injection H' as -> _.
    eapply well_shaped_payload; eauto.
  - destruct (search_edgar_sec_returns w name t) as (env' & t1 & H' & S).
    rewrite H in H'. injection H' as -> _.
    eapply well_shaped_payload; eauto.
  - destruct (search_sba_data_returns name loc t) as (env' & H' & S).
    rewrite H in H'. injection H' as -> _.
    eapply well_shaped_payload; eauto.
  - apply (well_shaped_payload dataset_name). shape_error.
Qed.

Lemma sba_envelope_produced : produced sba_envelope.
Proof. by apply (produced_sba (VStr "Acme Rockets Inc") None [] _ []). Qed.

Lemma payload_present_witness :
  produced sba_envelope
  /\ (data sba_envelope <> VNone <->
        status sba_envelope = "found"
        \/ status sba_envelope = "requires_csv_processing"
        \/ status sba_envelope = "error")
  /\ (data sba_envelope = VNone <->
        status sba_envelope = "not_found"
        \/ status sba_envelope = "API key required").
Proof.
  split; [exact sba_envelope_produced |].
  exact (payload_present_iff_found_stub_or_error
           sba_envelope sba_envelope_produced).
Defined.

(** C4, as the claim states it, fails on the stub adapter's envelope and
    on an adapter's error envelope: both carry a payload and neither has
    the status found. *)
Lemma payload_present_without_found :
  (produced sba_envelope
   /\ data sba_envelope <> VNone /\ status sba_envelope <> "found"
   /\ ~ (data sba_envelope <> VNone <-> status sba_envelope = "found"))
  /\ (search_usaspending (world_of no_env offline no_file)
        (VStr "Acme Rockets Inc") []
      = (Ok {| source := "USAspending.gov"; status := "error";
               data := VStr "Failed to establish a new connection" |},
         [EvRequest (usaspending_request (VStr "Acme Rockets Inc"));
          EvLog ERROR
            "Error searching USAspending.gov for {business_name}: {e}"
            [VStr "Acme Rockets Inc";
             VStr "Failed to establish a new connection"]])).
Proof.
  split; [| reflexivity].
  split; [exact sba_envelope_produced |].
  split; [discriminate |]. split; [discriminate |].
  intros [H _]. assert (Hs : status sba_envelope = "found")
    by (apply H; discriminate). discriminate.
Qed.

(** C7. With no SAM_API_KEY in the environment (unset, or set to the
    empty string), [search_sam_gov] returns the envelope with status API
    key required and no payload, for every name and location, and the
    only event is the logger's warning: no network call. *)
Theorem sam_without_credential_makes_no_call :
  forall w name loc t,
    getenv w "SAM_API_KEY" = None \/ getenv w "SAM_API_KEY" = Some "" ->
    search_sam_gov w name loc t
    = (Ok {| source := "SAM.gov"; status := "API key required";
             data := VNone |},
       t ++ [EvLog WARNING
               "SAM.gov API key not found in environment variables" []])
    /\ requests_of
         (t ++ [EvLog WARNING
                  "SAM.gov API key not found in environment variables" []])
       = requests_of t.
Proof.
  intros w name loc t Hkey. split; [| apply requests_of_log].
  assert (Hdef : default "" (getenv w "SAM_API_KEY") = "")
    by (destruct Hkey as [-> | ->]; reflexivity).
  unfold search_sam_gov, search_sam_gov_body, sam_params. run.
  rewrite Hdef.
  destruct loc as [loc|]; [| reflexivity].
  destruct (_ && _); reflexivity.
Qed.

Lemma sam_without_credential_witness :
  search_sam_gov (world_of no_env acme_net no_file) (VStr "Acme Rockets Inc")
    (Some [("city", VNone); ("state", VStr "CA"); ("zip", VNone)]) []
  = (Ok {| source := "SAM.gov"; status := "API key required";
           data := VNone |},
     [EvLog WARNING "SAM.gov API key not found in environment variables" []])
  /\ requests_of
       [EvLog WARNING "SAM.gov API key not found in environment variables" []]
     = [].
Proof.
  apply (sam_without_credential_makes_no_call
           (world_of no_env acme_net no_file) (VStr "Acme Rockets Inc")
           (Some [("city", VNone); ("state", VStr "CA"); ("zip", VNone)]) []).
  left. reflexivity.
Defined.

(** C8. For every name and location, [search_sba_data] returns the
    envelope with status requires_csv_processing whose payload lists the
    five bulk datasets to fetch, and leaves the trace as it was: no
    network call, no event at all. *)
Theorem sba_always_requires_offline_processing :
  forall name loc t,
    search_sba_data name loc t
    = (Ok {| source := "SBA Data";
             status := "requires_csv_processing";
             data :=
               VDict
                 [("note",
                   VStr "SBA data requires downloading CSV files and local processing");
                  ("datasets_to_check",
                   VList [VStr "PPP Loan Data";
                          VStr "8(a) Business Development";
                          VStr "HUBZone Certified Companies";
                          VStr "Women-Owned Small Business";
                          VStr "Service-Disabled Veteran-Owned"])] |},
       t).
Proof. intros name loc t. reflexivity. Qed.

(** C10. When the spending source or the filings source answers with a
    status code other than 200, the adapter returns the not_found
    envelope with no payload; and an adapter's envelope has the status
    error only when its body raised, the payload then being the message
    of the exception. *)
Theorem non_200_is_not_found_and_error_means_raised :
  (forall w name t resp,
     http w (usaspending_request name) t = Ok resp ->
     status_code resp <> 200 ->
     exists t',
       search_usaspending w name t
       = (Ok {| source := "USAspending.gov"; status := "not_found";
                data := VNone |}, t'))
  /\ (forall w name t resp,
        http w edgar_request t = Ok resp ->
        status_code resp <> 200 ->
        exists t',
          search_edgar_sec w name t
          = (Ok {| source := "SEC EDGAR"; status := "not_found";
                   data := VNone |}, t'))
  /\ (forall w name t env t',
        search_usaspending w name t = (Ok env, t') ->
        status env = "error" ->
        exists e t0,
          search_usaspending_body w name t = (Raise e, t0)
          /\ data env = VStr (str_exn e))
  /\ (forall w name t env t',
        search_edgar_sec w name t = (Ok env, t') ->
        status env = "error" ->
        exists e t0,
          search_edgar_sec_body w name t = (Raise e, t0)
          /\ data env = VStr (str_exn e)).
Proof.
  repeat split.
  - intros w name t resp Hresp Hcode.
    unfold search_usaspending, search_usaspending_body. run.
    rewrite Hresp. simpl.
    apply Z.eqb_neq in Hcode. rewrite Hcode. eexists. reflexivity.
  - intros w name t resp Hresp Hcode.
    unfold search_edgar_sec, search_edgar_sec_body. run.
    rewrite Hresp. simpl.
    apply Z.eqb_neq in Hcode. rewrite Hcode. eexists. reflexivity.
  - intros w name t env t'. unfold search_usaspending, try_except.
    destruct (search_usaspending_body w name t) as [[env'|e] t0] eqn:Hb.
    + intros [= <- _] Hs.
      apply search_usaspending_body_shape in Hb as [_ Hne]. contradiction.
    + run. intros [= <- _] _. exists e, t0. split; reflexivity.
  - intros w name t env t'. unfold search_edgar_sec, try_except.
    destruct (search_edgar_sec_body w name t) as [[env'|e] t0] eqn:Hb.
    + intros [= <- _] Hs.
      apply search_edgar_sec_body_shape in Hb as [_ Hne]. contradiction.
    + run. intros [= <- _] _. exists e, t0. split; reflexivity.
Qed.

Lemma non_200_witness :
  (exists t',
     search_usaspending (world_of no_env down_net no_file)
       (VStr "Acme Rockets Inc") []
     = (Ok {| source := "USAspending.gov"; status := "not_found";
              data := VNone |}, t'))
  /\ (exists t',
        search_edgar_sec (world_of no_env down_net no_file)
          (VStr "Acme Rockets Inc") []
        = (Ok {| source := "SEC EDGAR"; status := "not_found";
                 data := VNone |}, t')).
Proof.
  pose proof non_200_is_not_found_and_error_means_raised
    as (Husa & Hedgar & _ & _).
  split.
  - apply (Husa (world_of no_env down_net no_file) (VStr "Acme Rockets Inc") []
             (Response 503 (Raise (Exn "JSONDecodeError" "Expecting value: line 1 column 1 (char 0)"))));
      [reflexivity | simpl; lia].
  - apply (Hedgar (world_of no_env down_net no_file) (VStr "Acme Rockets Inc") []
             (Response 503 (Raise (Exn "JSONDecodeError" "Expecting value: line 1 column 1 (char 0)"))));
      [reflexivity | simpl; lia].
Defined.

(** *** The award loop *)

Lemma fold_raised (f : pyval -> pyval -> result pyval) values e :
  fold_left (fun acc v => let? total := acc in f total v) values (Raise e)
  = Raise e.
Proof. induction values as [|v values IH]; [reflexivity | exact IH]. Qed.

Lemma sum_raised values e :
  fold_left (fun acc v => let? total := acc in py_add total v) values (Raise e)
  = Raise e.
Proof. apply fold_raised. Qed.

Lemma collect_awards_dicts awards :
  forall total built,
    collect_awards (map VDict awards) total built
    = (let? sum :=
         fold_left (fun acc v => let? total := acc in py_iadd total v)
                   (map award_amount awards) (Ok total) in
       Ok (sum, built ++ map award_entry awards)).
Proof.
  induction awards as [|award rest IH]; intros total built.
  - simpl. by rewrite app_nil_r.
  - cbn [map collect_awards py_get rbind fold_left].
    fold (award_amount award).
    destruct (py_iadd total (award_amount award)) as [total'|e].
    + cbn [rbind]. rewrite IH. by rewrite <- app_assoc.
    + cbn [rbind]. by rewrite fold_raised.
Qed.

(** On a number [+=] is [+], but for the operator its TypeError names. *)
Lemma num_add_ok op op' a b r :
  num_add op a b = Ok r -> num_add op' a b = Ok r /\ is_number r = true.
Proof.
  unfold num_add.
  destruct (as_int a) as [x|], (as_int b) as [y|].
  - intros [= <-]. split; reflexivity.
  - destruct b; try discriminate.
    destruct (float_of_int x); cbn [rbind]; [| discriminate].
    intros [= <-]. split; reflexivity.
  - destruct a; try discriminate.
    destruct (float_of_int y); cbn [rbind]; [| discriminate].
    intros [= <-]. split; reflexivity.
  - destruct a; try discriminate. destruct b; try discriminate.
    intros [= <-]. split; reflexivity.
Qed.

Lemma add_number a b :
  is_number a = true ->
  py_add a b = num_add "+" a b /\ py_iadd a b = num_add "+=" a b.
Proof. destruct a; try discriminate; intros _; split; reflexivity. Qed.

(** The running total of the award loop is Python's sum of the amounts
    whenever that sum exists. *)
Lemma running_total_is_sum amounts :
  forall total r,
    is_number total = true ->
    fold_left (fun acc v => let? total := acc in py_add total v)
              amounts (Ok total) = Ok r ->
    fold_left (fun acc v => let? total := acc in py_iadd total v)
              amounts (Ok total) = Ok r.
Proof.
  induction amounts as [|v rest IH]; intros total r Hnum; [trivial |].
  cbn [fold_left rbind].
  destruct (add_number total v Hnum) as [-> ->].
  destruct (num_add "+" total v) as [total'|e] eqn:Hadd.
  - destruct (num_add_ok _ "+=" _ _ _ Hadd) as [-> Hnum'].
    apply IH, Hnum'.
  - rewrite fold_raised. discriminate.
Qed.

(** On integer amounts Python's sum is the sum of the integers. *)
Lemma py_sum_ints amounts :
  py_sum (map VInt amounts) = Ok (VInt (fold_right Z.add 0 amounts)).
Proof.
  unfold py_sum.
  assert (H : forall acc,
             fold_left (fun acc v => let? total := acc in py_add total v)
                       (map VInt amounts) (Ok (VInt acc))
             = Ok (VInt (acc + fold_right Z.add 0 amounts))).
  { induction amounts as [|z rest IH]; intros acc.
    - simpl. by rewrite Z.add_0_r.
    - cbn [map fold_left fold_right].
      change (let? total := Ok (VInt acc) in py_add total (VInt z))
        with (Ok (A := pyval) (VInt (acc + z))).
      rewrite IH. by rewrite Z.add_assoc. }
  exact (H 0).
Qed.

(** C6. When the spending source answers 200 with a non-empty list of
    awards whose amounts add up (Python's sum, from the left, starting
    at 0), the adapter returns the found envelope whose total_awards is
    the number of all returned awards, whose total_amount is the sum
    over all of them, and whose awards list holds the first five only,
    in the order of the source (which was asked to sort by amount,
    descending). *)
Theorem usaspending_totals_cover_all_awards :
  forall w name t resp body awards total,
    http w (usaspending_request name) t = Ok resp ->
    status_code resp = 200 ->
    json resp = Ok (VDict body) ->
    dict_get body "results" (VList []) = VList (map VDict awards) ->
    awards <> [] ->
    py_sum (map award_amount awards) = Ok total ->
    exists t',
      search_usaspending w name t
      = (Ok {| source := "USAspending.gov";
               status := "found";
               data :=
                 VDict [("total_awards", VInt (Z.of_nat (length awards)));
                        ("total_amount", total);
                        ("awards",
                         VList (firstn 5 (map award_entry awards)))] |},
         t').
Proof.
  intros w name t resp body awards total Hresp Hcode Hjson Hres Hne Hsum.
  unfold search_usaspending, search_usaspending_body. run.
  rewrite Hresp. simpl. rewrite Hcode. simpl. rewrite Hjson. simpl.
  rewrite Hres.
  destruct awards as [|award rest]; [contradiction |].
  cbn [map truthy].
  unfold usaspending_found. cbn [py_iter rbind].
  change (VDict award :: map VDict rest) with (map VDict (award :: rest)).
  rewrite collect_awards_dicts.
  unfold py_sum in Hsum.
  rewrite (running_total_is_sum _ (VInt 0) total eq_refl Hsum).
  cbn [rbind fst snd app].
  rewrite length_map. eexists. reflexivity.
Qed.

Lemma usaspending_totals_witness :
  exists t',
    search_usaspending (world_of no_env acme_net no_file)
      (VStr "Acme Rockets") []
    = (Ok {| source := "USAspending.gov";
             status := "found";
             data :=
               VDict [("total_awards", VInt 3);
                      ("total_amount", VFloat 3500000.5);
                      ("awards",
                       VList (firstn 5 (map award_entry acme_awards)))] |},
       t').
Proof.
  apply (usaspending_totals_cover_all_awards
           (world_of no_env acme_net no_file) (VStr "Acme Rockets") []
           (Response 200
              (Ok (VDict [("results", VList (map VDict acme_awards))])))
           [("results", VList (map VDict acme_awards))] acme_awards
           (VFloat 3500000.5));
    [reflexivity | reflexivity | reflexivity | reflexivity
    | discriminate | vm_compute; reflexivity].
Defined.

(** *** Substrings, the directory scan and the ranking *)

Lemma starts_with_spec sub s :
  starts_with sub s = true <-> exists after, s = sub +:+ after.
Proof.
  revert s. induction sub as [|c sub IH]; intros s; simpl.
  - split; [intros _; exists s; reflexivity | reflexivity].
  - destruct s as [|c' s'].
    + split; [discriminate | intros [after H]; discriminate].
    + rewrite andb_true_iff, Ascii.eqb_eq, IH.
      split.
      * intros [-> [after ->]]. exists after. reflexivity.
      * intros [after [= -> ->]]. split; [reflexivity | eauto].
Qed.

Lemma str_in_spec sub s : str_in sub s = true <-> substring_of sub s.
Proof.
  unfold substring_of. split.
  - induction s as [|c s IH]; simpl; rewrite orb_true_iff.
    + intros [H | H]; [| discriminate].
      apply starts_with_spec in H as [after H]. exists "", after. exact H.
    + intros [H | H].
      * apply starts_with_spec in H as [after H]. exists "", after. exact H.
      * destruct (IH H) as (before & after & ->).
        exists (String c before), after. reflexivity.
  - intros (before & after & ->).
    induction before as [|c before IH].
    + assert (Hp : starts_with sub (sub +:+ after) = true)
        by (apply starts_with_spec; eauto).
      change ("" +:+ sub +:+ after) with (sub +:+ after).
      destruct (sub +:+ after); simpl; rewrite Hp; reflexivity.
    + simpl. rewrite IH. apply orb_true_r.
Qed.

Lemma titled_title d :
  titled (VDict d) -> exists title, dict_get d "title" (VStr "") = VStr title.
Proof.
  unfold titled, dict_get.
  destruct (dict_lookup d "title") as [[]|]; try contradiction; eauto.
Qed.

Lemma scan_companies_titled w search_name items :
  Forall (fun kv => titled (snd kv)) items ->
  forall matches,
    scan_companies w search_name items matches
    = Ok (matches ++ omap (fun kv => selected w search_name (snd kv)) items).
Proof.
  induction 1 as [|[key company_data] items Ht _ IH]; intros matches.
  - simpl. by rewrite app_nil_r.
  - cbn [scan_companies omap list_omap snd]. destruct company_data;
      try (rewrite IH; reflexivity).
    destruct (titled_title d Ht) as [title Htitle].
    cbn [selected]. rewrite Htitle. cbn [py_lower rbind].
    destruct (_ || _).
    + rewrite IH. unfold candidate. by rewrite <- app_assoc.
    + rewrite IH. reflexivity.
Qed.

Lemma selected_spec w search_name company_data m :
  selected w search_name company_data = Some m <->
  exists d title,
    company_data = VDict d
    /\ dict_get d "title" (VStr "") = VStr title
    /\ (substring_of search_name (lower w title)
        \/ substring_of (lower w title) search_name)
    /\ m = candidate search_name (lower w title) d.
Proof.
  unfold selected. split.
  - destruct company_data; try discriminate.
    destruct (dict_get d "title" (VStr "")) eqn:Ht; try discriminate.
    destruct (_ || _) eqn:Hin; [| discriminate].
    intros [= <-]. exists d, s. split; [reflexivity |].
    split; [exact Ht |]. split; [| reflexivity].
    apply orb_true_iff in Hin. by rewrite <- !str_in_spec.
  - intros (d & title & -> & -> & Hin & ->).
    rewrite <- !str_in_spec, <- orb_true_iff in Hin. by rewrite Hin.
Qed.

Lemma insert_desc_perm m sorted : Permutation (insert_desc m sorted) (m :: sorted).
Proof.
  induction sorted as [|m' rest IH]; simpl; [reflexivity |].
  destruct (_ <=? _)%nat; [reflexivity |].
  rewrite IH. apply perm_swap.
Qed.

Lemma sort_desc_perm matches : Permutation (sort_desc matches) matches.
Proof.
  induction matches as [|m rest IH]; simpl; [reflexivity |].
  rewrite insert_desc_perm. by apply perm_skip.
Qed.

Lemma insert_desc_sorted m sorted :
  StronglySorted ranked_before sorted ->
  StronglySorted ranked_before (insert_desc m sorted).
Proof.
  induction 1 as [|m' rest Hs IH Hall]; simpl.
  - constructor; constructor.
  - destruct (match_score m' <=? match_score m)%nat eqn:Hle.
    + apply Nat.leb_le in Hle. constructor; [by constructor |].
      constructor; [exact Hle |].
      eapply Forall_impl; [exact Hall |].
      unfold ranked_before. simpl. intros x Hx. lia.
    + apply Nat.leb_gt in Hle. constructor; [exact IH |].
      rewrite insert_desc_perm. constructor; [| exact Hall].
      unfold ranked_before. lia.
Qed.

Lemma sort_desc_sorted matches :
  StronglySorted ranked_before (sort_desc matches).
Proof.
  induction matches as [|m rest IH]; simpl; [constructor |].
  by apply insert_desc_sorted.
Qed.

(** The ranking is stable: candidates of equal score keep the order of
    the directory. *)
Lemma insert_desc_stable k m sorted :
  List.filter (fun x => match_score x =? k)%nat (insert_desc m sorted)
  = List.filter (fun x => match_score x =? k)%nat (m :: sorted).
Proof.
  induction sorted as [|m' rest IH]; [reflexivity |].
  cbn [insert_desc].
  destruct (match_score m' <=? match_score m)%nat eqn:Hle; [reflexivity |].
  apply Nat.leb_gt in Hle.
  cbn [List.filter] in *. rewrite IH.
  destruct (match_score m =? k)%nat eqn:Hm;
    destruct (match_score m' =? k)%nat eqn:Hm'; try reflexivity.
  apply Nat.eqb_eq in Hm, Hm'. lia.
Qed.

Lemma sort_desc_stable k matches :
  List.filter (fun x => match_score x =? k)%nat (sort_desc matches)
  = List.filter (fun x => match_score x =? k)%nat matches.
Proof.
  induction matches as [|m rest IH]; [reflexivity |].
  cbn [sort_desc fold_right]. rewrite insert_desc_stable.
  cbn [List.filter]. fold (sort_desc rest). by rewrite IH.
Qed.

(** *** The words of a name *)

Lemma append_cons c a b : String c a +:+ b = String c (a +:+ b).
Proof. reflexivity. Qed.

Lemma append_assoc a b c : (a +:+ b) +:+ c = a +:+ b +:+ c.
Proof.
  induction a as [|x a IH]; [reflexivity |].
  by rewrite !append_cons, IH.
Qed.

Lemma append_nil_r a : a +:+ "" = a.
Proof.
  induction a as [|x a IH]; [reflexivity |]. by rewrite append_cons, IH.
Qed.

Lemma append_length a b :
  String.length (a +:+ b) = (String.length a + String.length b)%nat.
Proof.
  induction a as [|x a IH]; [reflexivity |].
  rewrite append_cons. cbn [String.length]. by rewrite IH.
Qed.

Lemma append_eq_append a b c d :
  a +:+ b = c +:+ d ->
  exists p, (c = a +:+ p /\ b = p +:+ d) \/ (a = c +:+ p /\ d = p +:+ b).
Proof.
  revert c. induction a as [|x a IH]; intros c H.
  - exists c. left. split; [reflexivity | exact H].
  - destruct c as [|y c].
    + exists (String x a). right. split; [reflexivity | exact (eq_sym H)].
    + rewrite !append_cons in H. injection H as -> H.
      destruct (IH c H) as [p [[-> ->] | [-> ->]]];
        exists p; [left | right]; split; reflexivity.
Qed.

Lemma whitespace_not_empty u : u ∈ whitespace -> u <> "".
Proof.
  intros H ->. vm_compute in H.
  repeat (apply elem_of_cons in H as [H | H]; [discriminate |]).
  by apply elem_of_nil in H.
Qed.

Lemma space_at_some s u :
  space_at s = Some u -> u ∈ whitespace /\ exists rest, s = u +:+ rest.
Proof.
  unfold space_at. intros H. apply find_some in H as [Hin Hs].
  split; [by apply list_elem_of_In | by apply starts_with_spec].
Qed.

Lemma space_at_none s u :
  space_at s = None -> u ∈ whitespace -> forall rest, s <> u +:+ rest.
Proof.
  unfold space_at. intros H Hin rest ->.
  apply list_elem_of_In in Hin.
  pose proof (find_none _ _ H u Hin) as Hf. simpl in Hf.
  assert (Ht : starts_with u (u +:+ rest) = true)
    by (apply starts_with_spec; eauto).
  congruence.
Qed.

Lemma split_from_skip p :
  forall cur s,
    split_from (String.length p) cur (p +:+ s) = split_from 0 cur s.
Proof.
  induction p as [|c p IH]; intros cur s; [reflexivity |].
  rewrite append_cons. cbn [String.length split_from]. apply IH.
Qed.

Lemma split_from_space cur s u rest :
  space_at s = Some u -> s = u +:+ rest ->
  split_from 0 cur s = flush cur ++ split_from 0 None rest.
Proof.
  intros Hs ->.
  destruct (space_at_some _ _ Hs) as [Hin _].
  pose proof (whitespace_not_empty u Hin) as Hne.
  destruct u as [|c u]; [contradiction |].
  rewrite append_cons in *. cbn [split_from]. rewrite Hs.
  cbn [String.length]. rewrite Nat.sub_succ, Nat.sub_0_r.
  by rewrite split_from_skip.
Qed.

Lemma split_from_letter cur c s :
  space_at (String c s) = None ->
  split_from 0 cur (String c s)
  = split_from 0
      (Some (match cur with
             | Some word => word +:+ String c ""
             | None => String c ""
             end)) s.
Proof. intros Hs. cbn [split_from]. by rewrite Hs. Qed.

Lemma clean_spaceless x s : clean x s -> spaceless x.
Proof.
  intros H u Hu (before & after & ->).
  apply (H before (u +:+ after) u (after +:+ s) Hu eq_refl).
  - pose proof (whitespace_not_empty u Hu). by destruct u.
  - apply append_assoc.
Qed.

Lemma clean_letter c s :
  space_at (String c s) = None -> clean (String c "") s.
Proof.
  intros Hs before after u rest Hu Hx Hne.
  destruct before as [|c' before].
  - change (String c "" = after) in Hx. subst after. by apply space_at_none.
  - rewrite append_cons in Hx. injection Hx as _ Hx.
    destruct before; [| discriminate]. by destruct after.
Qed.

Lemma clean_snoc x c s :
  clean x (String c s) -> space_at (String c s) = None ->
  clean (x +:+ String c "") s.
Proof.
  intros Hx Hs before after u rest Hu Heq Hne.
  apply append_eq_append in Heq as [p [[-> Hp] | [-> ->]]].
  - destruct p as [|c' p].
    + change (String c "" = after) in Hp. subst after.
      by apply space_at_none.
    + rewrite append_cons in Hp. injection Hp as _ Hp.
      destruct p; [| discriminate]. by destruct after.
  - rewrite append_assoc. change (String c "" +:+ s) with (String c s).
    destruct p as [|c' p].
    + by apply space_at_none.
    + by apply (Hx before (String c' p) u rest Hu).
Qed.

Lemma split_from_tokens n :
  forall s,
    (String.length s <= n)%nat ->
    tokens s (split_from 0 None s)
    /\ forall x, x <> "" -> clean x s ->
                 tokens (x +:+ s) (split_from 0 (Some x) s).
Proof.
  assert (Hend : tokens "" (split_from 0 None "")
                 /\ forall x, x <> "" -> clean x "" ->
                              tokens (x +:+ "") (split_from 0 (Some x) "")).
  { split; [constructor |]. intros x Hx Hc.
    apply tokens_word; [exact Hx | by eapply clean_spaceless | by left
                       | constructor]. }
  induction n as [|n IH]; intros s Hlen.
  - destruct s; [exact Hend | cbn in Hlen; lia].
  - destruct s as [|c s]; [exact Hend |].
    cbn [String.length] in Hlen.
    destruct (space_at (String c s)) as [u|] eqn:Hs.
    + destruct (space_at_some _ _ Hs) as [Hu [rest Heq]].
      assert (Hrest : (String.length rest <= n)%nat).
      { pose proof (whitespace_not_empty u Hu).
        apply (f_equal String.length) in Heq. rewrite append_length in Heq.
        cbn [String.length] in Heq. destruct u; [done |].
        cbn [String.length] in Heq. lia. }
      destruct (IH rest Hrest) as [Hnone _].
      split.
      * rewrite (split_from_space None _ _ _ Hs Heq), Heq.
        by apply tokens_space.
      * intros x Hx Hc.
        rewrite (split_from_space (Some x) _ _ _ Hs Heq), Heq.
        apply tokens_word; [exact Hx | by eapply clean_spaceless | |].
        -- right. eauto.
        -- by apply tokens_space.
    + assert (Hlen' : (String.length s <= n)%nat) by lia.
      destruct (IH s Hlen') as [_ Hsome].
      split.
      * rewrite (split_from_letter None _ _ Hs).
        apply (Hsome (String c "")); [discriminate | by apply clean_letter].
      * intros x Hx Hc. rewrite (split_from_letter (Some x) _ _ Hs).
        change (String c s) with (String c "" +:+ s).
        rewrite <- append_assoc. apply Hsome.
        -- by destruct x.
        -- by apply clean_snoc.
Qed.

Lemma tokens_split s : tokens s (split s).
Proof. by apply (split_from_tokens (String.length s)). Qed.

Ltac each_space H :=
  vm_compute in H;
  repeat (apply elem_of_cons in H as [-> | H]);
  [.. | by apply elem_of_nil in H].

(** No whitespace character starts another one. *)
Lemma whitespace_prefix_free u u' p :
  u ∈ whitespace -> u' ∈ whitespace -> u' = u +:+ p -> p = "".
Proof.
  intros Hu Hu' Heq.
  each_space Hu; each_space Hu'; vm_compute in Heq;
    first [discriminate Heq | by injection Heq].
Qed.

(** No whitespace character starts inside another one. *)
Lemma whitespace_no_overlap u u' p c q q' :
  u ∈ whitespace -> u' ∈ whitespace ->
  p <> "" -> u = p +:+ String c q -> u' = String c q' -> False.
Proof.
  intros Hu Hu' Hp Heq Heq'.
  each_space Hu';
    (each_space Hu;
     (destruct p as [|c1 [|c2 [|c3 p]]]; [done | ..]; vm_compute in Heq;
      try discriminate Heq; injection Heq; intros; subst;
      first [discriminate Heq' | destruct p; discriminate])).
Qed.

Lemma append_eq_nil a b : a +:+ b = "" -> a = "" /\ b = "".
Proof. destruct a; [intros H; split; [reflexivity | exact H] | discriminate]. Qed.

Lemma spaceless_not_space x u after :
  spaceless x -> u ∈ whitespace -> x <> u +:+ after.
Proof. intros Hx Hu ->. apply (Hx u Hu). by exists "", after. Qed.

(** A word and a whitespace character cannot start at the same place. *)
Lemma word_not_space x s u rest :
  x <> "" -> spaceless x -> at_boundary s -> u ∈ whitespace ->
  x +:+ s <> u +:+ rest.
Proof.
  intros Hne Hx Hs Hu Heq.
  apply append_eq_append in Heq as [p [[Hup Hp] | [Hxu _]]].
  - destruct p as [|c p].
    + rewrite append_nil_r in Hup. subst u.
      apply (spaceless_not_space x x "" Hx Hu). by rewrite append_nil_r.
    + destruct Hs as [-> | (u' & rest' & Hu' & ->)]; [discriminate Hp |].
      pose proof (whitespace_not_empty u' Hu').
      destruct u' as [|c' q']; [done |].
      rewrite !append_cons in Hp. injection Hp as -> _.
      by eapply (whitespace_no_overlap u (String c q') x c p q').
  - by apply (spaceless_not_space x u p).
Qed.

Lemma tokens_unique n :
  forall s ws ws',
    (String.length s <= n)%nat -> tokens s ws -> tokens s ws' -> ws = ws'.
Proof.
  induction n as [|n IH]; intros s ws ws' Hlen H H'.
  - destruct s; [| cbn in Hlen; lia].
    inversion H as [|u s1 ws1 Hu H1 Heq|x s1 ws1 Hx Hsp Hb H1 Heq];
      inversion H' as [|u' s1' ws1' Hu' H1' Heq'|x' s1' ws1' Hx' Hsp' Hb' H1' Heq'];
      subst; try reflexivity;
      repeat match goal with
        | E : _ +:+ _ = "" |- _ => apply append_eq_nil in E as [-> ->]
        end;
      try done;
      try (by exfalso; eapply whitespace_not_empty; eauto).
  - inversion H as [|u s1 ws1 Hu H1 Heq|x s1 ws1 Hx Hsp Hb H1 Heq];
      inversion H' as [|u' s1' ws1' Hu' H1' Heq'|x' s1' ws1' Hx' Hsp' Hb' H1' Heq'];
      subst; try reflexivity;
      repeat match goal with
        | E : _ +:+ _ = "" |- _ => apply append_eq_nil in E as [-> ->]
        | E : "" = _ +:+ _ |- _ => symmetry in E
        end;
      try done;
      try (by exfalso; eapply whitespace_not_empty; eauto).
    + (* space, space *)
      assert (u' = u /\ s1' = s1) as [-> ->].
      { apply append_eq_append in Heq' as [p [[Hup Hp] | [Hup Hp]]].
        - pose proof (whitespace_prefix_free _ _ _ Hu' Hu Hup) as ->.
          rewrite append_nil_r in Hup. by subst.
        - pose proof (whitespace_prefix_free _ _ _ Hu Hu' Hup) as ->.
          rewrite append_nil_r in Hup. by subst. }
      apply (IH s1); [| done | done].
      pose proof (whitespace_not_empty u Hu). rewrite append_length in Hlen.
      destruct u; [done |]. cbn [String.length] in Hlen. lia.
    + (* space, word *)
      exfalso. by eapply (word_not_space x' s1' u s1).
    + (* word, space *)
      exfalso. symmetry in Heq'. by eapply (word_not_space x s1 u' s1').
    + (* word, word *)
      assert (x' = x /\ s1' = s1) as [-> ->].
      { apply append_eq_append in Heq' as [p [[Hxp Hp] | [Hxp Hp]]].
        - destruct p as [|c p].
          { rewrite append_nil_r in Hxp. by subst. }
          exfalso. destruct Hb' as [-> | (u & rest & Hu & ->)];
            [discriminate Hp |].
          subst x. 
          apply (word_not_space (String c p) s1 u rest); try done.
          intros v Hv (before & after & Hsub). apply (Hsp v Hv).
          exists (x' +:+ before), after. by rewrite Hsub, !append_assoc.
        - destruct p as [|c p].
          { rewrite append_nil_r in Hxp. by subst. }
          exfalso. destruct Hb as [-> | (u & rest & Hu & ->)];
            [discriminate Hp |].
          subst x'.
          apply (word_not_space (String c p) s1' u rest); try done.
          intros v Hv (before & after & Hsub). apply (Hsp' v Hv).
          exists (x +:+ before), after. by rewrite Hsub, !append_assoc. }
      f_equal. apply (IH s1); [| done | done].
      rewrite append_length in Hlen.
      destruct x; [done |]. cbn [String.length] in Hlen. lia.
Qed.

Lemma tokens_iff_split s ws : tokens s ws <-> ws = split s.
Proof.
  split.
  - intros H. eapply tokens_unique; [reflexivity | exact H | apply tokens_split].
  - intros ->. apply tokens_split.
Qed.

(** *** The scan and the ranking, in the words of the claim *)

Lemma word_overlap_shared a b : shared_words a b (word_overlap a b).
Proof.
  exists (split a), (split b),
    (elements ((list_to_set (split a) : gset string) ∩ list_to_set (split b))).
  split; [apply tokens_split |]. split; [apply tokens_split |].
  split; [apply NoDup_elements |]. split; [| reflexivity].
  intros x. by rewrite elem_of_elements, elem_of_intersection,
              !elem_of_list_to_set.
Qed.

Lemma shared_words_iff a b n : shared_words a b n <-> n = word_overlap a b.
Proof.
  split; [| intros ->; apply word_overlap_shared].
  intros (wa & wb & common & Ha & Hb & Hnd & Hin & ->).
  apply tokens_iff_split in Ha as ->. apply tokens_iff_split in Hb as ->.
  unfold word_overlap, size, set_size. cbn.
  apply Permutation_length, NoDup_Permutation;
    [exact Hnd | apply NoDup_elements |].
  intros x. by rewrite Hin, elem_of_elements, elem_of_intersection,
              !elem_of_list_to_set.
Qed.

Lemma names_match_spec a b :
  str_in a b || str_in b a = true <-> names_match a b.
Proof. unfold names_match. by rewrite orb_true_iff, !str_in_spec. Qed.

Lemma scanned_selected w search_name items :
  Forall (fun kv => titled (snd kv)) items ->
  scanned w search_name items
    (omap (fun kv => selected w search_name (snd kv)) items).
Proof.
  induction 1 as [|[key company_data] items Ht _ IH]; [constructor |].
  cbn [omap list_omap snd] in *.
  destruct company_data as [| | | | |l|d];
    try (cbn [selected]; apply scanned_not_a_dict; [discriminate | exact IH]).
  destruct (titled_title d Ht) as [title Htitle].
  cbn [selected]. rewrite Htitle.
  destruct (_ || _) eqn:Hin.
  - apply scanned_match with (title := title); try done.
    + by apply names_match_spec.
    + apply word_overlap_shared.
  - apply scanned_no_match with (title := title); try done.
    rewrite <- names_match_spec. by rewrite Hin.
Qed.

Lemma scanned_unique w search_name items matches :
  scanned w search_name items matches ->
  Forall (fun kv => titled (snd kv)) items
  /\ matches = omap (fun kv => selected w search_name (snd kv)) items.
Proof.
  induction 1 as [|key v items matches Hv _ [IHt IH]
                  |key d title items matches Ht Hno _ [IHt IH]
                  |key d title items m matches Ht Hyes Hc Hk Hn Hs _ [IHt IH]].
  - split; [constructor | reflexivity].
  - split.
    + constructor; [| exact IHt]. destruct v; try exact I. by destruct (Hv d).
    + cbn [omap list_omap snd]. destruct v; try exact IH. by destruct (Hv d).
  - assert (Htitled : titled (VDict d)).
    { unfold titled. unfold dict_get in Ht.
      destruct (dict_lookup d "title") as [[]|]; try discriminate; exact I. }
    split; [by constructor |].
    cbn [omap list_omap snd selected]. rewrite Ht.
    rewrite <- names_match_spec in Hno.
    apply not_true_is_false in Hno as ->. exact IH.
  - assert (Htitled : titled (VDict d)).
    { unfold titled. unfold dict_get in Ht.
      destruct (dict_lookup d "title") as [[]|]; try discriminate; exact I. }
    split; [by constructor |].
    cbn [omap list_omap snd selected]. rewrite Ht.
    apply names_match_spec in Hyes as ->.
    apply shared_words_iff in Hs. rewrite <- IH. f_equal.
    destruct m. cbn in *. unfold candidate. by subst.
Qed.

Lemma ranking_sort_desc matches : ranking matches (sort_desc matches).
Proof.
  split; [apply sort_desc_perm |]. split; [apply sort_desc_sorted |].
  intros k. apply sort_desc_stable.
Qed.

Lemma search_edgar_sec_titled w name t resp items :
  http w edgar_request t = Ok resp ->
  status_code resp = 200 ->
  json resp = Ok (VDict items) ->
  Forall (fun kv => titled (snd kv)) items ->
  let matches := omap (fun kv => selected w (lower w name) (snd kv)) items in
  search_edgar_sec w (VStr name) t
  = (Ok match sort_desc matches with
        | best :: _ =>
            {| source := "SEC EDGAR";
               status := "found";
               data :=
                 VDict
                   [("matches_found", VInt (Z.of_nat (length matches)));
                    ("best_match", match_to_py best);
                    ("all_matches",
                     VList (map match_to_py (firstn 3 (sort_desc matches))))] |}
        | [] =>
            {| source := "SEC EDGAR"; status := "not_found";
               data := VNone |}
        end,
     t ++ [EvRequest edgar_request; EvSleep (VInt 1)]).
Proof.
  intros Hresp Hcode Hjson Htitled matches.
  unfold search_edgar_sec, search_edgar_sec_body. run.
  rewrite Hresp. simpl. rewrite Hcode. simpl. rewrite Hjson. simpl.
  rewrite (scan_companies_titled _ _ _ Htitled). cbn [app lift].
  unfold edgar_result. fold matches.
  rewrite <- !app_assoc. cbn [app].
  destruct matches as [|m ms] eqn:Hm; [reflexivity |].
  assert (Hlen : length (sort_desc (m :: ms)) = length (m :: ms))
    by (apply Permutation_length, sort_desc_perm).
  destruct (sort_desc (m :: ms)) as [|best rest] eqn:Hs;
    [discriminate |].
  rewrite Hlen. reflexivity.
Qed.

Lemma scan_companies_untitled w search_name before key d v after :
  Forall (fun kv => titled (snd kv)) before ->
  dict_lookup d "title" = Some v ->
  is_str v = false ->
  forall matches,
    scan_companies w search_name (before ++ (key, VDict d) :: after) matches
    = Raise (attribute_error v "lower").
Proof.
  intros Hbefore Hv Hstr.
  induction Hbefore as [|[key' company_data] before Ht _ IH]; intros matches.
  - cbn [app scan_companies]. unfold dict_get. rewrite Hv.
    destruct v; try discriminate; reflexivity.
  - cbn [app scan_companies]. destruct company_data; try apply IH.
    destruct (titled_title d0 Ht) as [title ->]. cbn [py_lower rbind].
    destruct (_ || _); apply IH.
Qed.

Lemma search_edgar_sec_untitled w name t resp before key d v after :
  http w edgar_request t = Ok resp ->
  status_code resp = 200 ->
  json resp = Ok (VDict (before ++ (key, VDict d) :: after)) ->
  Forall (fun kv => titled (snd kv)) before ->
  dict_lookup d "title" = Some v ->
  is_str v = false ->
  let message := "'" +:+ type_name v +:+ "' object has no attribute 'lower'" in
  search_edgar_sec w (VStr name) t
  = (Ok {| source := "SEC EDGAR"; status := "error";
           data := VStr message |},
     t ++ [EvRequest edgar_request; EvSleep (VInt 1);
           EvLog ERROR "Error searching SEC EDGAR for {business_name}: {e}"
             [VStr name; VStr message]]).
Proof.
  intros Hresp Hcode Hjson Hbefore Hv Hstr message.
  unfold search_edgar_sec, search_edgar_sec_body. run.
  rewrite Hresp. simpl. rewrite Hcode. simpl. rewrite Hjson. simpl.
  rewrite (scan_companies_untitled _ _ _ _ _ _ _ Hbefore Hv Hstr).
  cbn [lift]. by rewrite <- !app_assoc.
Qed.

Lemma search_edgar_sec_same_lowered w name name' t :
  lower w name = lower w name' ->
  fst (search_edgar_sec w (VStr name) t)
  = fst (search_edgar_sec w (VStr name') t).
Proof.
  intros Hlow.
  unfold search_edgar_sec, search_edgar_sec_body. run.
  destruct (http w edgar_request t) as [resp|e]; [simpl | reflexivity].
  destruct (status_code resp =? 200); [| reflexivity].
  destruct (json resp) as [companies|e]; [simpl | reflexivity].
  rewrite Hlow.
  destruct (py_items companies) as [items|e]; [simpl | reflexivity].
  destruct (scan_companies w (lower w name') items []) as [matches|e];
    [simpl | reflexivity].
  destruct (edgar_result matches); reflexivity.
Qed.

Lemma scanned_candidate w search_name items matches :
  scanned w search_name items matches ->
  forall key d title,
    (key, VDict d) ∈ items ->
    dict_get d "title" (VStr "") = VStr title ->
    names_match search_name (lower w title) ->
    exists m,
      m ∈ matches
      /\ cik m = dict_get d "cik_str" VNone
      /\ ticker m = dict_get d "ticker" (VStr "")
      /\ company_name m = dict_get d "title" VNone
      /\ shared_words search_name (lower w title) (match_score m).
Proof.
  induction 1 as [|key' v items matches Hv _ IH
                  |key' d' title' items matches Ht' Hno _ IH
                  |key' d' title' items m' matches Ht' Hyes Hc Hk Hn Hs _ IH];
    intros key d title Hin Ht Hmatch.
  - by apply elem_of_nil in Hin.
  - apply elem_of_cons in Hin as [[= -> <-] | Hin]; [by destruct (Hv d) |].
    eauto.
  - apply elem_of_cons in Hin as [[= -> ->] | Hin]; [| eauto].
    rewrite Ht in Ht'. injection Ht' as <-. contradiction.
  - apply elem_of_cons in Hin as [[= -> ->] | Hin].
    + rewrite Ht in Ht'. injection Ht' as <-.
      exists m'. split; [apply elem_of_cons; by left | done].
    + destruct (IH key d title Hin Ht Hmatch) as (m & Hm & Hrest).
      exists m. split; [apply elem_of_cons; by right | done].
Qed.

Lemma ranking_shows_all matches ranked :
  ranking matches ranked ->
  (length matches <= 3)%nat ->
  firstn 3 ranked = ranked.
Proof.
  intros (Hperm & _ & _) Hlen. apply firstn_all2.
  by rewrite (Permutation_length Hperm).
Qed.

(** C5, as the code has it. The claim fails for a directory in which
    a dict entry carries a title that is not a string, and its example
    fails when three candidates of at least the same score come first.
    What holds: on a 200 answer carrying a directory whose dict entries
    have a string title or none, the filings adapter scans the entries
    in order and makes a candidate of each dict entry whose lowered
    title contains the lowered search name or is contained in it; the
    score of a candidate is the number of distinct whitespace-separated
    words the two lowered names share; with no candidate the answer is
    not_found, otherwise found with the number of candidates, the first
    of the ranking as best_match and its first three as all_matches,
    the ranking being the candidates by descending score, equal scores
    in the order of the directory. A dict entry whose title is not a
    string, after entries that are in order, makes the answer the
    error envelope of the failed [lower]. Names that lower alike get
    the same answer, [lower] folds the capitals of ASCII, and [split]
    is the whitespace tokenization. For the title Acme Rockets Inc and
    the search Acme Rockets the score is 2, and the candidate is in
    all_matches when there are at most three candidates. *)
Theorem edgar_selects_scores_and_ranks :
  (forall w name t resp items,
     http w edgar_request t = Ok resp ->
     status_code resp = 200 ->
     json resp = Ok (VDict items) ->
     Forall (fun kv => titled (snd kv)) items ->
     exists matches ranked,
       scanned w (lower w name) items matches
       /\ ranking matches ranked
       /\ search_edgar_sec w (VStr name) t
          = (Ok match ranked with
                | best :: _ =>
                    {| source := "SEC EDGAR";
                       status := "found";
                       data :=
                         VDict
                           [("matches_found",
                             VInt (Z.of_nat (length matches)));
                            ("best_match", match_to_py best);
                            ("all_matches",
                             VList (map match_to_py (firstn 3 ranked)))] |}
                | [] =>
                    {| source := "SEC EDGAR"; status := "not_found";
                       data := VNone |}
                end,
             t ++ [EvRequest edgar_request; EvSleep (VInt 1)]))
  /\ (forall w name t resp before key d v after,
        http w edgar_request t = Ok resp ->
        status_code resp = 200 ->
        json resp = Ok (VDict (before ++ (key, VDict d) :: after)) ->
        Forall (fun kv => titled (snd kv)) before ->
        dict_lookup d "title" = Some v ->
        is_str v = false ->
        let message :=
          "'" +:+ type_name v +:+ "' object has no attribute 'lower'" in
        search_edgar_sec w (VStr name) t
        = (Ok {| source := "SEC EDGAR"; status := "error";
                 data := VStr message |},
           t ++ [EvRequest edgar_request; EvSleep (VInt 1);
                 EvLog ERROR
                   "Error searching SEC EDGAR for {business_name}: {e}"
                   [VStr name; VStr message]]))
  /\ (forall w name name' t,
        lower w name = lower w name' ->
        fst (search_edgar_sec w (VStr name) t)
        = fst (search_edgar_sec w (VStr name') t))
  /\ (forall w, lower w "ACME Rockets, INC." = "acme rockets, inc.")
  /\ (forall s ws, tokens s ws <-> ws = split s)
  /\ (forall w items matches ranked key d,
        scanned w (lower w "Acme Rockets") items matches ->
        ranking matches ranked ->
        (key, VDict d) ∈ items ->
        dict_lookup d "title" = Some (VStr "Acme Rockets Inc") ->
        exists m,
          m ∈ matches
          /\ company_name m = VStr "Acme Rockets Inc"
          /\ match_score m = 2%nat
          /\ ((length matches <= 3)%nat -> m ∈ firstn 3 ranked))
  /\ fst (search_edgar_sec (world_of no_env acme_net no_file)
            (VStr "ACME ROCKETS") [])
     = Ok {| source := "SEC EDGAR";
             status := "found";
             data :=
               VDict
                 [("matches_found", VInt 1);
                  ("best_match",
                   VDict [("cik", VInt 1234567); ("ticker", VStr "ACRK");
                          ("company_name", VStr "Acme Rockets Inc");
                          ("match_score", VInt 2)]);
                  ("all_matches",
                   VList
                     [VDict [("cik", VInt 1234567); ("ticker", VStr "ACRK");
                             ("company_name", VStr "Acme Rockets Inc");
                             ("match_score", VInt 2)]])] |}
  /\ fst (search_edgar_sec
            (world_of no_env (directory_net ecole_items) no_file)
            (VStr ecole_capitals) [])
     = Ok {| source := "SEC EDGAR";
             status := "found";
             data :=
               VDict
                 [("matches_found", VInt 1);
                  ("best_match",
                   VDict [("cik", VInt 42); ("ticker", VStr "ECOL");
                          ("company_name", VStr ecole_nationale);
                          ("match_score", VInt 1)]);
                  ("all_matches",
                   VList
                     [VDict [("cik", VInt 42); ("ticker", VStr "ECOL");
                             ("company_name", VStr ecole_nationale);
                             ("match_score", VInt 1)]])] |}.
Proof.
  split; [| split; [| split; [| split; [| split; [| split; [| split]]]]]].
  - intros w name t resp items Hresp Hcode Hjson Htitled.
    exists (omap (fun kv => selected w (lower w name) (snd kv)) items).
    exists (sort_desc
              (omap (fun kv => selected w (lower w name) (snd kv)) items)).
    split; [by apply scanned_selected |].
    split; [apply ranking_sort_desc |].
    by apply (search_edgar_sec_titled w name t resp items).
  - intros w name t resp before key d v after.
    apply search_edgar_sec_untitled.
  - apply search_edgar_sec_same_lowered.
  - intros w. reflexivity.
  - apply tokens_iff_split.
  - intros w items matches ranked key d Hscan Hrank Hin Htitle.
    destruct (scanned_candidate _ _ _ _ Hscan key d "Acme Rockets Inc" Hin)
      as (m & Hm & _ & _ & Hname & Hscore).
    + unfold dict_get. by rewrite Htitle.
    + left. by exists "", " inc".
    + exists m. split; [exact Hm |]. split; [| split].
      * rewrite Hname. unfold dict_get. by rewrite Htitle.
      * apply shared_words_iff in Hscore as ->. vm_compute. reflexivity.
      * intros Hlen. rewrite (ranking_shows_all _ _ Hrank Hlen).
        destruct Hrank as [Hperm _]. by rewrite Hperm.
  - vm_compute. reflexivity.
  - vm_compute. reflexivity.
Qed.

Lemma edgar_selects_witness :
  (exists matches ranked,
     scanned (world_of no_env acme_net no_file)
       (lower (world_of no_env acme_net no_file) "Acme Rockets")
       acme_items matches
     /\ ranking matches ranked
     /\ search_edgar_sec (world_of no_env acme_net no_file)
          (VStr "Acme Rockets") []
        = (Ok match ranked with
              | best :: _ =>
                  {| source := "SEC EDGAR";
                     status := "found";
                     data :=
                       VDict
                         [("matches_found",
                           VInt (Z.of_nat (length matches)));
                          ("best_match", match_to_py best);
                          ("all_matches",
                           VList (map match_to_py (firstn 3 ranked)))] |}
              | [] =>
                  {| source := "SEC EDGAR"; status := "not_found";
                     data := VNone |}
              end,
           [] ++ [EvRequest edgar_request; EvSleep (VInt 1)]))
  /\ search_edgar_sec
       (world_of no_env (directory_net numbered_items) no_file)
       (VStr "Acme Rockets") []
     = (Ok {| source := "SEC EDGAR"; status := "error";
              data := VStr "'int' object has no attribute 'lower'" |},
        [] ++ [EvRequest edgar_request; EvSleep (VInt 1);
               EvLog ERROR
                 "Error searching SEC EDGAR for {business_name}: {e}"
                 [VStr "Acme Rockets";
                  VStr "'int' object has no attribute 'lower'"]])
  /\ fst (search_edgar_sec (world_of no_env acme_net no_file)
            (VStr "Acme Rockets") [])
     = fst (search_edgar_sec (world_of no_env acme_net no_file)
              (VStr "ACME ROCKETS") [])
  /\ (exists m,
        m ∈ crowded_matches
        /\ company_name m = VStr "Acme Rockets Inc"
        /\ match_score m = 2%nat
        /\ ((length crowded_matches <= 3)%nat ->
            m ∈ firstn 3 (sort_desc crowded_matches))).
Proof.
  pose proof edgar_selects_scores_and_ranks
    as (Hscan & Herror & Hcase & _ & _ & Hexample & _).
  split; [| split; [| split]].
  - apply (Hscan (world_of no_env acme_net no_file) "Acme Rockets" []
             (Response 200 (Ok acme_directory)) acme_items);
      [reflexivity | reflexivity | reflexivity | repeat constructor].
  - apply (Herror (world_of no_env (directory_net numbered_items) no_file)
             "Acme Rockets" []
             (Response 200 (Ok (VDict numbered_items)))
             [("0", VDict [("cik_str", VInt 1234567); ("ticker", VStr "ACRK");
                           ("title", VStr "Acme Rockets Inc")])]
             "1"
             [("cik_str", VInt 7); ("ticker", VStr "SEVN"); ("title", VInt 7)]
             (VInt 7) []);
      [reflexivity | reflexivity | reflexivity | repeat constructor
      | reflexivity | reflexivity].
  - apply Hcase. reflexivity.
  - apply (Hexample (world_of no_env (directory_net crowded_items) no_file)
             crowded_items crowded_matches (sort_desc crowded_matches)
             "3"
             [("cik_str", VInt 1234567); ("ticker", VStr "ACRK");
              ("title", VStr "Acme Rockets Inc")]).
    + exact (scanned_selected
               (world_of no_env (directory_net crowded_items) no_file)
               "acme rockets" crowded_items
               ltac:(repeat constructor)).
    + apply ranking_sort_desc.
    + do 3 (apply elem_of_cons; right). apply elem_of_cons. by left.
    + reflexivity.
Defined.

(** The claim fails on two counts. A directory entry whose title is a
    number makes the adapter answer with an error although the entry of
    Acme Rockets Inc matches the search; and among four candidates of
    the same score the one of Acme Rockets Inc, the last of the
    directory, is left out of all_matches. *)
Lemma edgar_candidates_lost_to_a_number_or_a_crowd :
  fst (search_edgar_sec
         (world_of no_env (directory_net numbered_items) no_file)
         (VStr "Acme Rockets") [])
  = Ok {| source := "SEC EDGAR"; status := "error";
          data := VStr "'int' object has no attribute 'lower'" |}
  /\ fst (search_edgar_sec
            (world_of no_env (directory_net crowded_items) no_file)
            (VStr "Acme Rockets") [])
     = Ok {| source := "SEC EDGAR";
             status := "found";
             data :=
               VDict
                 [("matches_found", VInt 4);
                  ("best_match",
                   VDict [("cik", VInt 1); ("ticker", VStr "ACRA");
                          ("company_name", VStr "Acme Rockets One");
                          ("match_score", VInt 2)]);
                  ("all_matches",
                   VList
                     [VDict [("cik", VInt 1); ("ticker", VStr "ACRA");
                             ("company_name", VStr "Acme Rockets One");
                             ("match_score", VInt 2)];
                      VDict [("cik", VInt 2); ("ticker", VStr "ACRB");
                             ("company_name", VStr "Acme Rockets Two");
                             ("match_score", VInt 2)];
                      VDict [("cik", VInt 3); ("ticker", VStr "ACRC");
                             ("company_name", VStr "Acme Rockets Three");
                             ("match_score", VInt 2)]])] |}.
Proof. split; vm_compute; reflexivity. Qed.

(** *** Reading the input file *)

Lemma column_absent df :
  "business_name" ∉ columns df -> has_column "business_name" df = false.
Proof.
  unfold has_column. intros Hnot. apply not_true_is_false. intros Hex.
  apply existsb_exists in Hex as (c & Hin & Heq).
  apply String.eqb_eq in Heq as <-.
  apply Hnot, list_elem_of_In, Hin.
Qed.

(** C9, as the code has it. The claim `a hard input error' fails: the
    loader raises the ValueError inside its own try and catches it. What
    holds: for a table without the business_name column the loader logs
    the error at once and returns the empty list, no row of the table;
    and main, given that list, logs that no business was found and
    ends: no business is processed, no network call is made, nothing is
    written. *)
Theorem missing_column_logged_and_nothing_processed :
  (forall w filepath t df,
     read_csv w filepath t = Ok df ->
     "business_name" ∉ columns df ->
     read_business_csv w filepath t
     = (Ok [],
        t ++ [EvLog INFO "Loaded {len(df)} businesses from {filepath}"
                [VInt (Z.of_nat (length (rows df))); VStr filepath];
              EvLog ERROR "Error reading CSV: {e}"
                [VStr "CSV must contain 'business_name' column"]]))
  /\ (forall w t df,
        path_exists w "business_list.csv" t = true ->
        read_csv w "business_list.csv" t = Ok df ->
        "business_name" ∉ columns df ->
        main w t
        = (Ok tt,
           t ++ [EvLog INFO "Loaded {len(df)} businesses from {filepath}"
                   [VInt (Z.of_nat (length (rows df)));
                    VStr "business_list.csv"];
                 EvLog ERROR "Error reading CSV: {e}"
                   [VStr "CSV must contain 'business_name' column"];
                 EvLog ERROR "No businesses found in CSV file" []])).
Proof.
  assert (Hread : forall w filepath t df,
             read_csv w filepath t = Ok df ->
             "business_name" ∉ columns df ->
             read_business_csv w filepath t
             = (Ok [],
                t ++ [EvLog INFO "Loaded {len(df)} businesses from {filepath}"
                        [VInt (Z.of_nat (length (rows df))); VStr filepath];
                      EvLog ERROR "Error reading CSV: {e}"
                        [VStr "CSV must contain 'business_name' column"]])).
  { intros w filepath t df Hcsv Hcol.
    unfold read_business_csv. run. rewrite Hcsv. simpl.
    rewrite (column_absent _ Hcol). simpl.
    by rewrite <- app_assoc. }
  split; [exact Hread |].
  intros w t df Hexists Hcsv Hcol.
  unfold main, bind, ret. rewrite Hexists. cbn [negb].
  rewrite (Hread w _ t df Hcsv Hcol).
  unfold log, emit. by rewrite <- app_assoc.
Qed.

Lemma missing_column_witness :
  read_business_csv (world_of no_env acme_net (Ok nameless_table))
    "business_list.csv" []
  = (Ok [],
     [EvLog INFO "Loaded {len(df)} businesses from {filepath}"
        [VInt 1; VStr "business_list.csv"];
      EvLog ERROR "Error reading CSV: {e}"
        [VStr "CSV must contain 'business_name' column"]])
  /\ main (world_of no_env acme_net (Ok nameless_table)) []
     = (Ok tt,
        [EvLog INFO "Loaded {len(df)} businesses from {filepath}"
           [VInt 1; VStr "business_list.csv"];
         EvLog ERROR "Error reading CSV: {e}"
           [VStr "CSV must contain 'business_name' column"];
         EvLog ERROR "No businesses found in CSV file" []]).
Proof.
  split.
  - apply (proj1 missing_column_logged_and_nothing_processed
             (world_of no_env acme_net (Ok nameless_table))
             "business_list.csv" [] nameless_table);
      [reflexivity
      | simpl; rewrite !not_elem_of_cons; repeat split;
        try discriminate; apply not_elem_of_nil].
  - apply (proj2 missing_column_logged_and_nothing_processed
             (world_of no_env acme_net (Ok nameless_table)) [] nameless_table);
      [reflexivity | reflexivity
      | simpl; rewrite !not_elem_of_cons; repeat split;
        try discriminate; apply not_elem_of_nil].
Defined.

(** C9, as the claim states it, fails: on a table without the
    business_name column the loader does not raise, it returns the
    empty list like for an empty file. *)
Lemma missing_column_is_not_raised :
  read_business_csv (world_of no_env acme_net (Ok nameless_table))
    "business_list.csv" []
  = (Ok [],
     [EvLog INFO "Loaded {len(df)} businesses from {filepath}"
        [VInt 1; VStr "business_list.csv"];
      EvLog ERROR "Error reading CSV: {e}"
        [VStr "CSV must contain 'business_name' column"]])
  /\ ~ (exists e t',
          read_business_csv (world_of no_env acme_net (Ok nameless_table))
            "business_list.csv" []
          = (Raise e, t')).
Proof.
  split; [reflexivity |]. intros (e & t' & H). discriminate.
Qed.

(** ** Further properties of the code *)

(** *** The network calls of a dispatch *)

Lemma requests_of_app t1 t2 :
  requests_of (t1 ++ t2) = requests_of t1 ++ requests_of t2.
Proof. apply omap_app. Qed.

Ltac count_requests :=
  simpl; repeat rewrite requests_of_app; simpl; rewrite ?app_nil_r;
  reflexivity.

Lemma sam_api_key w name loc :
  dict_index (sam_params w name loc) "api_key"
  = Ok (VStr (default "" (getenv w "SAM_API_KEY"))).
Proof.
  unfold sam_params. destruct loc as [loc|]; [| reflexivity].
  destruct (_ && _); reflexivity.
Qed.

Lemma search_sam_gov_requests w name loc t :
  requests_of (snd (search_sam_gov w name loc t))
  = requests_of t
    ++ (if truthy (VStr (default "" (getenv w "SAM_API_KEY")))
        then [sam_request (sam_params w name loc)] else []).
Proof.
  unfold search_sam_gov, search_sam_gov_body. run.
  rewrite sam_api_key. simpl.
  destruct (negb (String.eqb (default "" (getenv w "SAM_API_KEY")) ""));
    simpl; [| count_requests].
  destruct (http w (sam_request (sam_params w name loc)) t) as [resp|e];
    simpl; [| count_requests].
  destruct (status_code resp =? 200); [| count_requests].
  destruct (json resp) as [body|e]; simpl; [| count_requests].
  destruct (py_get body "entityData" (VList [])) as [entities|e]; simpl;
    [| count_requests].
  destruct (truthy entities); [| count_requests].
  destruct (py_index0 entities) as [entity|e]; simpl; [| count_requests].
  destruct (sam_found entity) as [found|e]; simpl; count_requests.
Qed.

Lemma search_usaspending_requests w name t :
  requests_of (snd (search_usaspending w name t))
  = requests_of t ++ [usaspending_request name].
Proof.
  unfold search_usaspending, search_usaspending_body. run.
  destruct (http w (usaspending_request name) t) as [resp|e];
    simpl; [| count_requests].
  destruct (status_code resp =? 200); [| count_requests].
  destruct (json resp) as [body|e]; simpl; [| count_requests].
  destruct (py_get body "results" (VList [])) as [results|e]; simpl;
    [| count_requests].
  destruct (truthy results); [| count_requests].
  destruct (usaspending_found results) as [found|e]; simpl; count_requests.
Qed.

Lemma search_edgar_sec_requests w name t :
  requests_of (snd (search_edgar_sec w name t))
  = requests_of t ++ [edgar_request].
Proof.
  unfold search_edgar_sec, search_edgar_sec_body. run.
  destruct (http w edgar_request t) as [resp|e]; simpl; [| count_requests].
  destruct (status_code resp =? 200); [| count_requests].
  destruct (json resp) as [companies|e]; simpl; [| count_requests].
  destruct (py_lower w name) as [search_name|e]; simpl; [| count_requests].
  destruct (py_items companies) as [items|e]; simpl; [| count_requests].
  destruct (scan_companies w search_name items []) as [matches|e]; simpl;
    [| count_requests].
  destruct (edgar_result matches) as [found|e]; simpl; count_requests.
Qed.

Lemma run_real_datasets_requests w name loc t :
  exists envs t',
    run_datasets (datasets_to_search w name loc) [] t = (Ok envs, t')
    /\ requests_of t'
       = requests_of t
         ++ (if truthy (VStr (default "" (getenv w "SAM_API_KEY")))
             then [sam_request (sam_params w name (Some loc))] else [])
         ++ [usaspending_request name; edgar_request].
Proof.
  unfold datasets_to_search.
  pose proof (search_sam_gov_requests w name (Some loc) t) as R1.
  destruct (search_sam_gov_returns w name (Some loc) t)
    as (e1 & t1 & H1 & _).
  rewrite H1 in R1. rewrite run_datasets_cons, H1. simpl in R1.
  match goal with |- context [run_datasets _ _ ?u] =>
    pose proof (search_usaspending_requests w name u) as R2;
    destruct (search_usaspending_returns w name u) as (e2 & t2 & H2 & _) end.
  rewrite H2 in R2. rewrite run_datasets_cons, H2. simpl in R2.
  match goal with |- context [run_datasets _ _ ?u] =>
    pose proof (search_edgar_sec_requests w name u) as R3;
    destruct (search_edgar_sec_returns w name u) as (e3 & t3 & H3 & _) end.
  rewrite H3 in R3. rewrite run_datasets_cons, H3. simpl in R3.
  match goal with |- context [run_datasets _ _ ?u] =>
    destruct (search_sba_data_returns name (Some loc) u) as (e4 & H4 & _) end.
  rewrite run_datasets_cons, H4.
  do 2 eexists. split; [reflexivity |].
  rewrite !requests_of_log, R3, requests_of_log, R2, requests_of_log, R1.
  rewrite <- !app_assoc. reflexivity.
Qed.

Lemma search_business_requests w business_info t :
  exists rec t',
    search_business_across_datasets w business_info t = (Ok rec, t')
    /\ requests_of t' = requests_of t ++ dispatch_requests w business_info.
Proof.
  unfold search_business_across_datasets, bind, log, emit, now_iso, ret,
    dispatch_requests.
  fold (location_of business_info).
  match goal with
  | |- context [run_datasets (datasets_to_search w ?n ?l) [] ?t0] =>
      destruct (run_real_datasets_requests w n l t0) as (envs & t' & H & R)
  end.
  rewrite H. do 2 eexists. split; [reflexivity |].
  rewrite R, requests_of_log. reflexivity.
Qed.

(** X4. The requests of a dispatch do not depend on what the sources
    answer: for every row the dispatch returns and has sent, in order,
    the entity-registry request when a key is configured, then the
    spending request and the directory request; nothing else. *)
Theorem dispatch_sends_fixed_requests :
  forall w business_info t,
  exists rec t',
    search_business_across_datasets w business_info t = (Ok rec, t')
    /\ requests_of t' = requests_of t ++ dispatch_requests w business_info.
Proof. exact search_business_requests. Qed.

(** X5. The pipeline sends, for every input row in order, the requests
    of its dispatch: the issuer directory is fetched again for every
    business, and the number of calls is fixed by the input alone. *)
Theorem pipeline_requests_follow_the_input :
  forall w businesses t,
  exists results t',
    process_businesses w businesses t = (Ok results, t')
    /\ requests_of t'
       = requests_of t ++ concat (map (dispatch_requests w) businesses).
Proof.
  intros w businesses t. unfold process_businesses.
  generalize (Z.of_nat (length businesses)) 1 (@nil BusinessResult).
  revert t.
  induction businesses as [|business rest IH]; intros t total idx acc.
  - exists acc, t. split; [reflexivity |]. simpl. by rewrite app_nil_r.
  - rewrite process_loop_cons.
    match goal with
    | |- context [search_business_across_datasets w business ?t0] =>
        destruct (search_business_requests w business t0)
          as (rec & t1 & -> & R)
    end.
    edestruct IH as (results & t' & -> & R').
    do 2 eexists. split; [reflexivity |].
    rewrite R', requests_of_app, R, requests_of_log. simpl.
    rewrite app_nil_r, <- app_assoc. reflexivity.
Qed.

(** *** Failures and empty answers of the adapters *)

(** X6. When the transport fails (requests raises), each of the three
    network adapters returns the error envelope carrying the message of
    the failure, and does not pause: the trace gains the request and the
    logger's error, no sleep. *)
Theorem transport_failure_is_error_without_pause :
  (forall w name loc t e,
     truthy (VStr (default "" (getenv w "SAM_API_KEY"))) = true ->
     http w (sam_request (sam_params w name loc)) t = Raise e ->
     search_sam_gov w name loc t
     = (Ok {| source := "SAM.gov"; status := "error";
              data := VStr (str_exn e) |},
        t ++ [EvRequest (sam_request (sam_params w name loc));
              EvLog ERROR "Error searching SAM.gov for {business_name}: {e}"
                [name; VStr (str_exn e)]]))
  /\ (forall w name t e,
        http w (usaspending_request name) t = Raise e ->
        search_usaspending w name t
        = (Ok {| source := "USAspending.gov"; status := "error";
                 data := VStr (str_exn e) |},
           t ++ [EvRequest (usaspending_request name);
                 EvLog ERROR
                   "Error searching USAspending.gov for {business_name}: {e}"
                   [name; VStr (str_exn e)]]))
  /\ (forall w name t e,
        http w edgar_request t = Raise e ->
        search_edgar_sec w name t
        = (Ok {| source := "SEC EDGAR"; status := "error";
                 data := VStr (str_exn e) |},
           t ++ [EvRequest edgar_request;
                 EvLog ERROR
                   "Error searching SEC EDGAR for {business_name}: {e}"
                   [name; VStr (str_exn e)]])).
Proof.
  repeat split.
  - intros w name loc t e Hkey Hnet.
    unfold search_sam_gov, search_sam_gov_body. run.
    rewrite sam_api_key. simpl. simpl in Hkey. rewrite Hkey. simpl.
    rewrite Hnet. simpl. by rewrite <- app_assoc.
  - intros w name t e Hnet.
    unfold search_usaspending, search_usaspending_body. run.
    rewrite Hnet. simpl. by rewrite <- app_assoc.
  - intros w name t e Hnet.
    unfold search_edgar_sec, search_edgar_sec_body. run.
    rewrite Hnet. simpl. by rewrite <- app_assoc.
Qed.

Lemma transport_failure_witness :
  search_sam_gov (world_of with_key offline no_file)
    (VStr "Acme Rockets Inc") None []
  = (Ok {| source := "SAM.gov"; status := "error";
           data := VStr "Failed to establish a new connection" |},
     [EvRequest
        (sam_request
           (sam_params (world_of with_key offline no_file)
              (VStr "Acme Rockets Inc") None));
      EvLog ERROR "Error searching SAM.gov for {business_name}: {e}"
        [VStr "Acme Rockets Inc";
         VStr "Failed to establish a new connection"]]).
Proof.
  apply (proj1 transport_failure_is_error_without_pause
           (world_of with_key offline no_file) (VStr "Acme Rockets Inc")
           None [] unreachable); reflexivity.
Defined.

(** X7. With a key configured, an answer of the entity registry with a
    status code other than 200, or a 200 answer whose entityData is
    absent, empty or otherwise false, gives the not_found envelope with
    no payload, after one request and the one-second pause. *)
Theorem sam_non_200_or_no_entity_is_not_found :
  forall w name loc t resp,
    truthy (VStr (default "" (getenv w "SAM_API_KEY"))) = true ->
    http w (sam_request (sam_params w name loc)) t = Ok resp ->
    status_code resp <> 200
    \/ (exists body,
          json resp = Ok (VDict body)
          /\ truthy (dict_get body "entityData" (VList [])) = false) ->
    search_sam_gov w name loc t
    = (Ok {| source := "SAM.gov"; status := "not_found"; data := VNone |},
       t ++ [EvRequest (sam_request (sam_params w name loc));
             EvSleep (VInt 1)]).
Proof.
  intros w name loc t resp Hkey Hnet Hcase.
  unfold search_sam_gov, search_sam_gov_body. run.
  rewrite sam_api_key. simpl. rewrite Hkey. simpl.
  rewrite Hnet. simpl.
  destruct (status_code resp =? 200) eqn:Hcode.
  - destruct Hcase as [Hne | (body & Hjson & Hfalse)].
    + apply Z.eqb_eq in Hcode. contradiction.
    + rewrite Hjson. simpl. rewrite Hfalse. by rewrite <- app_assoc.
  - by rewrite <- app_assoc.
Qed.

Lemma sam_not_found_witness :
  search_sam_gov (world_of with_key empty_net no_file)
    (VStr "Acme Rockets Inc") None []
  = (Ok {| source := "SAM.gov"; status := "not_found"; data := VNone |},
     [EvRequest
        (sam_request
           (sam_params (world_of with_key empty_net no_file)
              (VStr "Acme Rockets Inc") None));
      EvSleep (VInt 1)]).
Proof.
  apply (sam_non_200_or_no_entity_is_not_found
           (world_of with_key empty_net no_file) (VStr "Acme Rockets Inc")
           None [] (Response 200 (Ok (VDict []))));
    [reflexivity | reflexivity |].
  right. exists []. split; reflexivity.
Defined.

Lemma naics_codes_of_dicts codes :
  fold_right
    (fun naics acc =>
       let? code := py_get naics "naicsCode" VNone in
       let? codes := acc in
       Ok (code :: codes))
    (Ok []) (map VDict codes)
  = Ok (map (fun c => dict_get c "naicsCode" VNone) codes).
Proof.
  induction codes as [|c rest IH]; [reflexivity |].
  cbn [map fold_right]. rewrite IH. reflexivity.
Qed.

(** X8. On a 200 answer listing entities, the entity registry adapter
    reads the first entity only: its identifier, facility code and
    status from entityRegistration, its legal name from coreData, the
    codes of its primary NAICS entries; a key that is absent gives
    [None]. The entities after the first do not matter. *)
Theorem sam_found_reads_first_entity :
  forall w name loc t resp body entity others registration core naics codes,
    truthy (VStr (default "" (getenv w "SAM_API_KEY"))) = true ->
    http w (sam_request (sam_params w name loc)) t = Ok resp ->
    status_code resp = 200 ->
    json resp = Ok (VDict body) ->
    dict_get body "entityData" (VList []) = VList (VDict entity :: others) ->
    dict_get entity "entityRegistration" (VDict []) = VDict registration ->
    dict_get entity "coreData" (VDict []) = VDict core ->
    dict_get entity "naicsInformation" (VDict []) = VDict naics ->
    dict_get naics "primaryNaics" (VList []) = VList (map VDict codes) ->
    search_sam_gov w name loc t
    = (Ok {| source := "SAM.gov";
             status := "found";
             data :=
               VDict
                 [("uei", dict_get registration "ueiSAM" VNone);
                  ("cage_code", dict_get registration "cageCode" VNone);
                  ("legal_name", dict_get core "legalBusinessName" VNone);
                  ("registration_status",
                   dict_get registration "registrationStatus" VNone);
                  ("naics_codes",
                   VList (map (fun c => dict_get c "naicsCode" VNone)
                              codes))] |},
       t ++ [EvRequest (sam_request (sam_params w name loc));
             EvSleep (VInt 1)]).
Proof.
  intros w name loc t resp body entity others registration core naics codes
    Hkey Hnet Hcode Hjson Hent Hreg Hcore Hnaics Hprim.
  unfold search_sam_gov, search_sam_gov_body. run.
  rewrite sam_api_key. simpl. rewrite Hkey. simpl.
  rewrite Hnet. simpl. rewrite Hcode. simpl. rewrite Hjson. simpl.
  rewrite Hent. simpl.
  unfold sam_found. cbn [py_get rbind].
  rewrite Hreg, Hcore, Hnaics. cbn [py_get rbind].
  rewrite Hprim. cbn [py_iter rbind].
  rewrite naics_codes_of_dicts. cbn [rbind].
  by rewrite <- app_assoc.
Qed.

Lemma sam_found_witness :
  search_sam_gov (world_of with_key registry_net no_file)
    (VStr "Acme Rockets Inc") None []
  = (Ok {| source := "SAM.gov";
           status := "found";
           data :=
             VDict
               [("uei", VStr "ACME12345678");
                ("cage_code", VStr "1AB23");
                ("legal_name", VStr "ACME ROCKETS INC");
                ("registration_status", VStr "Active");
                ("naics_codes", VList [VStr "336414"; VStr "336415"])] |},
     [EvRequest
        (sam_request
           (sam_params (world_of with_key registry_net no_file)
              (VStr "Acme Rockets Inc") None));
      EvSleep (VInt 1)]).
Proof.
  apply (sam_found_reads_first_entity
           (world_of with_key registry_net no_file) (VStr "Acme Rockets Inc")
           None []
           (Response 200
              (Ok (VDict [("entityData",
                           VList [VDict acme_entity; VDict []])])))
           [("entityData", VList [VDict acme_entity; VDict []])]
           acme_entity [VDict []]
           [("ueiSAM", VStr "ACME12345678"); ("cageCode", VStr "1AB23");
            ("registrationStatus", VStr "Active")]
           [("legalBusinessName", VStr "ACME ROCKETS INC")]
           [("primaryNaics",
             VList [VDict [("naicsCode", VStr "336414")];
                    VDict [("naicsCode", VStr "336415")]])]
           [[("naicsCode", VStr "336414")]; [("naicsCode", VStr "336415")]]);
    reflexivity.
Defined.

Lemma sam_state_filter w name loc :
  dict_lookup (sam_params w name (Some loc)) "stateOrProvinceCode"
  = (if truthy (dict_get loc "state" VNone)
     then Some (dict_get loc "state" VNone) else None)
  /\ dict_lookup (sam_params w name (Some loc)) "legalBusinessName"
     = Some name.
Proof.
  unfold sam_params. destruct loc as [|kv rest].
  - split; reflexivity.
  - cbn [truthy andb].
    destruct (truthy (dict_get (kv :: rest) "state" VNone));
      split; reflexivity.
Qed.

(** X9. With a key configured, the one request of the entity registry
    adapter searches by the business name, and carries the state filter
    exactly when the state of the row is true in Python's sense (a
    non-empty string, but also a number such as the NaN of a blank
    cell); a missing or empty state sends no filter. *)
Theorem sam_request_filters_by_truthy_state :
  forall w name loc t,
    truthy (VStr (default "" (getenv w "SAM_API_KEY"))) = true ->
    exists r,
      requests_of (snd (search_sam_gov w name (Some loc) t))
      = requests_of t ++ [r]
      /\ req_url r = "https://api.sam.gov/entity-information/v3/entities"
      /\ dict_lookup (req_params r) "legalBusinessName" = Some name
      /\ dict_lookup (req_params r) "stateOrProvinceCode"
         = (if truthy (dict_get loc "state" VNone)
            then Some (dict_get loc "state" VNone) else None).
Proof.
  intros w name loc t Hkey.
  exists (sam_request (sam_params w name (Some loc))).
  rewrite search_sam_gov_requests, Hkey.
  destruct (sam_state_filter w name loc) as [Hstate Hname].
  split; [reflexivity |]. split; [reflexivity |].
  split; [exact Hname | exact Hstate].
Qed.

Lemma sam_request_filter_witness :
  exists r,
    requests_of
      (snd (search_sam_gov (world_of with_key offline no_file)
              (VStr "Acme Rockets Inc")
              (Some [("city", VNone); ("state", VStr "CA"); ("zip", VNone)])
              []))
    = [] ++ [r]
    /\ req_url r = "https://api.sam.gov/entity-information/v3/entities"
    /\ dict_lookup (req_params r) "legalBusinessName"
       = Some (VStr "Acme Rockets Inc")
    /\ dict_lookup (req_params r) "stateOrProvinceCode" = Some (VStr "CA").
Proof.
  apply (sam_request_filters_by_truthy_state
           (world_of with_key offline no_file) (VStr "Acme Rockets Inc")
           [("city", VNone); ("state", VStr "CA"); ("zip", VNone)] []).
  reflexivity.
Defined.

(** X10. A 200 answer of the spending source whose results are absent,
    empty or otherwise false gives the not_found envelope with no
    payload, after one request and the half-second pause. *)
Theorem usaspending_no_results_is_not_found :
  forall w name t resp body,
    http w (usaspending_request name) t = Ok resp ->
    status_code resp = 200 ->
    json resp = Ok (VDict body) ->
    truthy (dict_get body "results" (VList [])) = false ->
    search_usaspending w name t
    = (Ok {| source := "USAspending.gov"; status := "not_found";
             data := VNone |},
       t ++ [EvRequest (usaspending_request name); EvSleep (VFloat 0.5)]).
Proof.
  intros w name t resp body Hnet Hcode Hjson Hfalse.
  unfold search_usaspending, search_usaspending_body. run.
  rewrite Hnet. simpl. rewrite Hcode. simpl. rewrite Hjson. simpl.
  rewrite Hfalse. by rewrite <- app_assoc.
Qed.

Lemma usaspending_no_results_witness :
  search_usaspending (world_of no_env empty_net no_file)
    (VStr "Acme Rockets Inc") []
  = (Ok {| source := "USAspending.gov"; status := "not_found";
           data := VNone |},
     [EvRequest (usaspending_request (VStr "Acme Rockets Inc"));
      EvSleep (VFloat 0.5)]).
Proof.
  apply (usaspending_no_results_is_not_found
           (world_of no_env empty_net no_file) (VStr "Acme Rockets Inc") []
           (Response 200 (Ok (VDict []))) []); reflexivity.
Defined.

(** *** Amounts that cannot be added *)

Lemma sum_is_number amounts :
  forall acc r,
    is_number acc = true ->
    fold_left (fun acc v => let? total := acc in py_add total v)
              amounts (Ok acc) = Ok r ->
    is_number r = true.
Proof.
  induction amounts as [|v rest IH]; intros acc r Hacc.
  - by intros [= <-].
  - cbn [fold_left rbind]. destruct (add_number acc v Hacc) as [-> _].
    destruct (num_add "+" acc v) as [acc'|e] eqn:Hadd.
    + apply IH. eapply num_add_ok with (op' := "+"), Hadd.
    + rewrite fold_raised. discriminate.
Qed.

Lemma iadd_not_a_number total amount :
  is_number total = true -> is_number amount = false ->
  py_iadd total amount = Raise (unsupported "+=" total amount).
Proof.
  destruct total; try discriminate; destruct amount; try discriminate;
    reflexivity.
Qed.

(** X11. When the amount of a returned award is not a number (a null,
    a string) while the amounts of the awards before it add up to
    [total], the spending adapter returns an error envelope whose data
    is the message of the failed [total_amount += award_amount], naming
    the operator and the types of the running total and of the amount;
    it logs that message after the request and the pause, and reports
    no totals and no awards, not even for the awards before it. *)
Theorem usaspending_bad_amount_is_error :
  forall w name t resp body good bad rest total,
    http w (usaspending_request name) t = Ok resp ->
    status_code resp = 200 ->
    json resp = Ok (VDict body) ->
    dict_get body "results" (VList [])
    = VList (map VDict (good ++ bad :: rest)) ->
    py_sum (map award_amount good) = Ok total ->
    is_number (award_amount bad) = false ->
    let message :=
      "unsupported operand type(s) for +=: '" +:+ type_name total
      +:+ "' and '" +:+ type_name (award_amount bad) +:+ "'" in
    search_usaspending w name t
    = (Ok {| source := "USAspending.gov"; status := "error";
             data := VStr message |},
       t ++ [EvRequest (usaspending_request name); EvSleep (VFloat 0.5);
             EvLog ERROR
               "Error searching USAspending.gov for {business_name}: {e}"
               [name; VStr message]]).
Proof.
  intros w name t resp body good bad rest total Hnet Hcode Hjson Hres
    Hsum Hbad message.
  assert (Hnum : is_number total = true)
    by (eapply sum_is_number with (acc := VInt 0); [reflexivity | exact Hsum]).
  unfold search_usaspending, search_usaspending_body. run.
  rewrite Hnet. simpl. rewrite Hcode. simpl. rewrite Hjson. simpl.
  rewrite Hres.
  assert (Hne : truthy (VList (map VDict (good ++ bad :: rest))) = true)
    by (destruct good; reflexivity).
  rewrite Hne. unfold usaspending_found. cbn [py_iter rbind].
  rewrite collect_awards_dicts, !map_app, fold_left_app.
  unfold py_sum in Hsum.
  rewrite (running_total_is_sum _ (VInt 0) total eq_refl Hsum).
  cbn [map fold_left rbind].
  rewrite (iadd_not_a_number _ _ Hnum Hbad), fold_raised. cbn [rbind].
  by rewrite <- !app_assoc.
Qed.

Lemma usaspending_bad_amount_witness :
  search_usaspending (world_of no_env unpriced_net no_file)
    (VStr "Acme Rockets Inc") []
  = (Ok {| source := "USAspending.gov"; status := "error";
           data :=
             VStr "unsupported operand type(s) for +=: 'int' and 'NoneType'" |},
     [EvRequest (usaspending_request (VStr "Acme Rockets Inc"));
      EvSleep (VFloat 0.5);
      EvLog ERROR
        "Error searching USAspending.gov for {business_name}: {e}"
        [VStr "Acme Rockets Inc";
         VStr "unsupported operand type(s) for +=: 'int' and 'NoneType'"]]).
Proof.
  apply (usaspending_bad_amount_is_error
           (world_of no_env unpriced_net no_file) (VStr "Acme Rockets Inc") []
           (Response 200
              (Ok (VDict [("results", VList (map VDict unpriced_awards))])))
           [("results", VList (map VDict unpriced_awards))]
           [[("Award ID", VStr "W911"); ("Award Amount", VInt 1000000)]]
           [("Award ID", VStr "N000"); ("Award Amount", VNone)] []
           (VInt 1000000));
    reflexivity.
Defined.

(** X15. A business name that is not a string (the NaN of a blank cell,
    a number) makes the filings adapter return an error envelope saying
    that the value has no attribute lower; this happens after the
    directory has been fetched and the pause taken. *)
Theorem edgar_name_not_text_is_error :
  forall w name t resp companies,
    is_str name = false ->
    http w edgar_request t = Ok resp ->
    status_code resp = 200 ->
    json resp = Ok companies ->
    search_edgar_sec w name t
    = (Ok {| source := "SEC EDGAR"; status := "error";
             data := VStr ("'" +:+ type_name name
                           +:+ "' object has no attribute 'lower'") |},
       t ++ [EvRequest edgar_request; EvSleep (VInt 1);
             EvLog ERROR "Error searching SEC EDGAR for {business_name}: {e}"
               [name;
                VStr ("'" +:+ type_name name
                      +:+ "' object has no attribute 'lower'")]]).
Proof.
  intros w name t resp companies Hname Hnet Hcode Hjson.
  unfold search_edgar_sec, search_edgar_sec_body. run.
  rewrite Hnet. simpl. rewrite Hcode. simpl. rewrite Hjson. simpl.
  destruct name; try discriminate; simpl; by rewrite <- !app_assoc.
Qed.

Lemma edgar_name_not_text_witness :
  search_edgar_sec (world_of no_env acme_net no_file) (VFloat nan) []
  = (Ok {| source := "SEC EDGAR"; status := "error";
           data := VStr "'float' object has no attribute 'lower'" |},
     [EvRequest edgar_request; EvSleep (VInt 1);
      EvLog ERROR "Error searching SEC EDGAR for {business_name}: {e}"
        [VFloat nan; VStr "'float' object has no attribute 'lower'"]]).
Proof.
  apply (edgar_name_not_text_is_error
           (world_of no_env acme_net no_file) (VFloat nan) []
           (Response 200 (Ok acme_directory)) acme_directory); reflexivity.
Defined.

(** *** The score and the ranking of the filings adapter *)

#[local] Set Warnings "-clear-no-such-hyp".

Lemma size_list_to_set_le (l : list string) :
  (size (list_to_set l : gset string) <= length l)%nat.
Proof.
  induction l as [|x l IH]; cbn [length].
  - by rewrite list_to_set_nil, size_empty.
  - rewrite list_to_set_cons, size_union_alt, size_singleton.
    assert ((size (list_to_set l ∖ {[x]} : gset string)
             <= size (list_to_set l : gset string))%nat)
      by (apply subseteq_size; set_solver).
    lia.
Qed.

(** X14. The match score is symmetric in the two names, is at most the
    number of words of either name, and is zero exactly when the names
    share no word. *)
Theorem word_overlap_symmetric_and_bounded :
  forall a b,
    word_overlap a b = word_overlap b a
    /\ (word_overlap a b <= length (split a))%nat
    /\ (word_overlap a b <= length (split b))%nat
    /\ (word_overlap a b = 0%nat <->
        forall word, word ∈ split a -> word ∈ split b -> False).
Proof.
  intros a b. unfold word_overlap. repeat split.
  - f_equal. set_solver.
  - etransitivity; [| apply size_list_to_set_le].
    apply subseteq_size. set_solver.
  - etransitivity; [| apply (size_list_to_set_le (split b))].
    apply subseteq_size. set_solver.
  - intros H word Ha Hb. apply size_empty_inv in H.
    assert (word ∈ (list_to_set (split a) : gset string)
                   ∩ list_to_set (split b)) by set_solver.
    set_solver.
  - intros H. apply size_empty_iff. set_solver.
Qed.

Lemma sort_desc_head_is_top matches best rest :
  sort_desc matches = best :: rest ->
  forall m, m ∈ matches -> (match_score m <= match_score best)%nat.
Proof.
  intros Hs m Hin.
  pose proof (sort_desc_sorted matches) as Hsorted.
  pose proof (sort_desc_perm matches) as Hperm.
  rewrite Hs in Hsorted, Hperm.
  apply StronglySorted_inv in Hsorted as [_ Hall].
  rewrite <- Hperm in Hin. apply elem_of_cons in Hin as [-> | Hin].
  - reflexivity.
  - rewrite List.Forall_forall in Hall.
    apply Hall, list_elem_of_In, Hin.
Qed.

(** X13. When the directory scan selects candidates, the best_match of
    the filings adapter is a candidate of the highest score, the
    earliest of the directory among those of that score; it leads
    all_matches, which holds three candidates or all of them when they
    are fewer, and every one of them when there are at most three. *)
Theorem edgar_best_match_is_first_top_score :
  forall w name t resp items matches,
    http w edgar_request t = Ok resp ->
    status_code resp = 200 ->
    json resp = Ok (VDict items) ->
    scanned w (lower w name) items matches ->
    matches <> [] ->
    exists best more,
      search_edgar_sec w (VStr name) t
      = (Ok {| source := "SEC EDGAR";
               status := "found";
               data :=
                 VDict
                   [("matches_found", VInt (Z.of_nat (length matches)));
                    ("best_match", match_to_py best);
                    ("all_matches",
                     VList (map match_to_py (best :: more)))] |},
         t ++ [EvRequest edgar_request; EvSleep (VInt 1)])
      /\ best ∈ matches
      /\ (forall m, m ∈ matches -> (match_score m <= match_score best)%nat)
      /\ (exists later,
            List.filter (fun m => match_score m =? match_score best)%nat
                        matches
            = best :: later)
      /\ length (best :: more) = Nat.min 3 (length matches)
      /\ ((length matches <= 3)%nat -> Permutation (best :: more) matches).
Proof.
  intros w name t resp items matches Hresp Hcode Hjson Hscan Hne.
  apply scanned_unique in Hscan as [Htitled Hmatches].
  pose proof (search_edgar_sec_titled w name t resp items
                Hresp Hcode Hjson Htitled) as Hrun.
  cbn zeta in Hrun. rewrite <- Hmatches in Hrun.
  pose proof (sort_desc_perm matches) as Hperm.
  destruct (sort_desc matches) as [|best rest] eqn:Hs.
  { apply Permutation_nil in Hperm. contradiction. }
  exists best, (firstn 2 rest). split; [exact Hrun |].
  split; [| split; [| split; [| split]]].
  - rewrite <- Hperm. apply elem_of_cons. by left.
  - eapply sort_desc_head_is_top; eauto.
  - rewrite <- sort_desc_stable, Hs. cbn [List.filter].
    rewrite Nat.eqb_refl. eexists. reflexivity.
  - change (best :: firstn 2 rest) with (firstn 3 (best :: rest)).
    rewrite length_firstn. by rewrite (Permutation_length Hperm).
  - intros Hlen.
    change (best :: firstn 2 rest) with (firstn 3 (best :: rest)).
    rewrite firstn_all2; [exact Hperm |].
    by rewrite (Permutation_length Hperm).
Qed.

Lemma edgar_best_match_witness :
  exists best more,
    search_edgar_sec (world_of no_env (directory_net crowded_items) no_file)
      (VStr "Acme Rockets") []
    = (Ok {| source := "SEC EDGAR";
             status := "found";
             data :=
               VDict
                 [("matches_found",
                   VInt (Z.of_nat (length crowded_matches)));
                  ("best_match", match_to_py best);
                  ("all_matches",
                   VList (map match_to_py (best :: more)))] |},
       [] ++ [EvRequest edgar_request; EvSleep (VInt 1)])
    /\ best ∈ crowded_matches
    /\ (forall m,
          m ∈ crowded_matches -> (match_score m <= match_score best)%nat)
    /\ (exists later,
          List.filter (fun m => match_score m =? match_score best)%nat
                      crowded_matches
          = best :: later)
    /\ length (best :: more) = Nat.min 3 (length crowded_matches)
    /\ ((length crowded_matches <= 3)%nat ->
        Permutation (best :: more) crowded_matches).
Proof.
  apply (edgar_best_match_is_first_top_score
           (world_of no_env (directory_net crowded_items) no_file)
           "Acme Rockets" []
           (Response 200 (Ok (VDict crowded_items))) crowded_items
           crowded_matches);
    [reflexivity | reflexivity | reflexivity | | discriminate].
  exact (scanned_selected
           (world_of no_env (directory_net crowded_items) no_file)
           "acme rockets" crowded_items
           ltac:(repeat constructor)).
Defined.




(** *** The statistics of the report *)

Lemma found_is_not_not_found env :
  status_is "found" env = true -> status_is "not_found" env = false.
Proof.
  unfold status_is. intros H. apply String.eqb_eq in H. by rewrite H.
Qed.

Lemma bump_row name env dataset_stats :
  stats_row name (bump env dataset_stats)
  = if String.eqb (source env) name
    then count_status env (stats_row name dataset_stats)
    else stats_row name dataset_stats.
Proof.
  induction dataset_stats as [|[name' s] others IH].
  - cbn [bump stats_row]. destruct (String.eqb (source env) name); reflexivity.
  - cbn [bump].
    destruct (String.eqb name' (source env)) eqn:Hsrc.
    + apply String.eqb_eq in Hsrc as ->. cbn [stats_row].
      destruct (String.eqb (source env) name); reflexivity.
    + cbn [stats_row]. rewrite IH.
      destruct (String.eqb name' name) eqn:Hname; [| reflexivity].
      apply String.eqb_eq in Hname as ->.
      rewrite String.eqb_sym, Hsrc. reflexivity.
Qed.

Lemma tally_rows name envs :
  forall dataset_stats flag,
    let row := stats_row name (fst (tally envs dataset_stats flag)) in
    let old := stats_row name dataset_stats in
    let mine := from_source name envs in
    stat_found row
    = (stat_found old + length (List.filter (status_is "found") mine))%nat
    /\ stat_not_found row
       = (stat_not_found old
          + length (List.filter (status_is "not_found") mine))%nat
    /\ stat_error row
       = (stat_error old + length (List.filter counted_as_error mine))%nat.
Proof.
  induction envs as [|env rest IH]; intros dataset_stats flag.
  - cbn. repeat split; lia.
  - cbn [tally]. cbn zeta in *.
    destruct (IH (bump env dataset_stats)
                 (if status_is "found" env then true else flag))
      as (Hf & Hn & He).
    rewrite Hf, Hn, He, bump_row. unfold from_source. cbn [List.filter].
    destruct (String.eqb (source env) name); [| repeat split; reflexivity].
    cbn [List.filter]. unfold count_status, counted_as_error.
    destruct (status_is "found" env) eqn:Hfound.
    + rewrite (found_is_not_not_found env Hfound). cbn.
      repeat split; lia.
    + destruct (status_is "not_found" env); cbn; repeat split; lia.
Qed.

Lemma tally_flag envs :
  forall dataset_stats flag,
    snd (tally envs dataset_stats flag)
    = flag || existsb (status_is "found") envs.
Proof.
  induction envs as [|env rest IH]; intros dataset_stats flag.
  - cbn. by rewrite orb_false_r.
  - cbn [tally existsb]. rewrite IH.
    destruct (status_is "found" env), flag; reflexivity.
Qed.

Lemma from_source_app name envs1 envs2 :
  from_source name (envs1 ++ envs2)
  = from_source name envs1 ++ from_source name envs2.
Proof. apply List.filter_app. Qed.

Lemma summarize_rows name results :
  forall n dataset_stats,
    let row := stats_row name (snd (summarize results n dataset_stats)) in
    let old := stats_row name dataset_stats in
    let mine := from_source name (all_envelopes results) in
    stat_found row
    = (stat_found old + length (List.filter (status_is "found") mine))%nat
    /\ stat_not_found row
       = (stat_not_found old
          + length (List.filter (status_is "not_found") mine))%nat
    /\ stat_error row
       = (stat_error old + length (List.filter counted_as_error mine))%nat.
Proof.
  induction results as [|r rest IH]; intros n dataset_stats.
  - cbn. repeat split; lia.
  - cbn [summarize]. cbn zeta in *.
    match goal with
    | |- context [summarize rest ?n' ?stats'] =>
        destruct (IH n' stats') as (Hf & Hn & He)
    end.
    destruct (tally_rows name (envelopes_of r) dataset_stats false)
      as (Tf & Tn & Te).
    rewrite Hf, Hn, He, Tf, Tn, Te.
    unfold all_envelopes. cbn [map concat].
    rewrite from_source_app, !List.filter_app, !length_app.
    repeat split; lia.
Qed.

Lemma summarize_count results :
  forall n dataset_stats,
    fst (summarize results n dataset_stats)
    = (n + length (List.filter has_findings results))%nat.
Proof.
  induction results as [|r rest IH]; intros n dataset_stats.
  - cbn. lia.
  - cbn [summarize List.filter]. rewrite IH, tally_flag.
    cbn [orb]. fold (has_findings r).
    destruct (has_findings r); cbn [length]; lia.
Qed.

Lemma status_partition envs :
  (length (List.filter (status_is "found") envs)
   + length (List.filter (status_is "not_found") envs)
   + length (List.filter counted_as_error envs))%nat
  = length envs.
Proof.
  induction envs as [|env rest IH]; [reflexivity |].
  cbn [List.filter length]. unfold counted_as_error at 1.
  destruct (status_is "found" env) eqn:Hfound.
  - rewrite (found_is_not_not_found env Hfound). cbn [negb andb length]. lia.
  - destruct (status_is "not_found" env); cbn [negb andb length]; lia.
Qed.

(** X16. In the summary statistics the row of a source counts the
    envelopes labelled with that source over all results: found and
    not_found by their status, every other status (error, API key
    required, requires_csv_processing) as an error; the three counters
    add up to the number of envelopes of the source. A degenerate record
    adds nothing. *)
Theorem statistics_rows_count_envelopes :
  forall results name,
    let row := stats_row name (snd (summary_statistics results)) in
    let mine := from_source name (all_envelopes results) in
    stat_found row = length (List.filter (status_is "found") mine)
    /\ stat_not_found row
       = length (List.filter (status_is "not_found") mine)
    /\ stat_error row = length (List.filter counted_as_error mine)
    /\ (stat_found row + stat_not_found row + stat_error row)%nat
       = length mine.
Proof.
  intros results name. cbn zeta. unfold summary_statistics. cbn [snd].
  destruct (summarize_rows name results 0%nat []) as (Hf & Hn & He).
  cbn zeta in Hf, Hn, He. cbn [stats_row no_stats stat_found stat_not_found
                                stat_error] in Hf, Hn, He.
  rewrite Hf, Hn, He. repeat split; try reflexivity.
  apply status_partition.
Qed.

(** X17. The number of businesses with findings of the summary is the
    number of detail sections rendered with the class found, and never
    exceeds the number of results; the total is the number of results. *)
Theorem findings_count_matches_detail_classes :
  forall results,
    fst (fst (summary_statistics results)) = length results
    /\ snd (fst (summary_statistics results))
       = length (List.filter (fun r => String.eqb (css_class r) "found")
                             results)
    /\ (snd (fst (summary_statistics results)) <= length results)%nat.
Proof.
  intros results. unfold summary_statistics. cbn [fst snd].
  rewrite summarize_count. cbn [Nat.add].
  assert (Hsame : List.filter (fun r => String.eqb (css_class r) "found")
                              results
                  = List.filter has_findings results).
  { apply List.filter_ext. intros r. unfold css_class.
    destruct (has_findings r); reflexivity. }
  rewrite Hsame. repeat split; try reflexivity.
  apply List.filter_length_le.
Qed.

(** *** The location line of the report *)

Lemma join_from_raises sep items :
  forall i,
    (exists e, join_from sep i items = Raise e)
    <-> existsb (fun v => negb (is_str v)) items = true.
Proof.
  induction items as [|v rest IH]; intros i.
  - cbn. split; [intros [e H]; discriminate | discriminate].
  - cbn [join_from existsb]. destruct v; cbn [is_str negb orb];
      try (split; [reflexivity | intros _; eexists; reflexivity]).
    rewrite <- (IH (S i)). split.
    + intros [e H]. destruct (join_from sep (S i) rest) as [tail|e'];
        [discriminate | eauto].
    + intros [e H]. rewrite H. eexists. reflexivity.
Qed.

Lemma filter_truthy_not_text items :
  existsb (fun v => negb (is_str v)) (filter_truthy items)
  = existsb (fun v => truthy v && negb (is_str v)) items.
Proof.
  unfold filter_truthy. induction items as [|v rest IH]; [reflexivity |].
  cbn [List.filter existsb]. destruct (truthy v); cbn [existsb andb];
    by rewrite IH.
Qed.

(** X18. For the location the dispatch records (city, state, zip of the
    row), the location line of the report raises a TypeError exactly
    when one of the three values is true in Python's sense and is not a
    string: an integer zip code or the NaN of a blank cell. When the
    three values are all false (absent, [None], empty) there is no
    location line. *)
Theorem report_location_raises_iff_not_text :
  forall business_info,
    let loc := location_of business_info in
    let values := [dict_get business_info "city" VNone;
                   dict_get business_info "state" VNone;
                   dict_get business_info "zip" VNone] in
    ((exists e, report_location loc = Raise e)
     <-> existsb (fun v => truthy v && negb (is_str v)) values = true)
    /\ (existsb truthy values = false -> report_location loc = Ok None).
Proof.
  intros business_info. cbn zeta.
  unfold report_location, location_of.
  set (c := dict_get business_info "city" VNone).
  set (s := dict_get business_info "state" VNone).
  set (z := dict_get business_info "zip" VNone).
  change (dict_get [("city", c); ("state", s); ("zip", z)] "city" VNone)
    with c.
  change (dict_get [("city", c); ("state", s); ("zip", z)] "state" VNone)
    with s.
  change (dict_get [("city", c); ("state", s); ("zip", z)] "zip" VNone)
    with z.
  change (map snd [("city", c); ("state", s); ("zip", z)]) with [c; s; z].
  split.
  - rewrite <- filter_truthy_not_text, <- (join_from_raises ", " _ 0%nat).
    fold (py_join ", " (filter_truthy [c; s; z])).
    destruct (existsb truthy [c; s; z]) eqn:Hany.
    + split.
      * intros [e H].
        destruct (py_join ", " (filter_truthy [c; s; z])) as [text|e'];
          [discriminate | eauto].
      * intros [e H]. rewrite H. eexists. reflexivity.
    + split; [intros [e H]; discriminate |].
      intros [e H]. exfalso. revert H. unfold py_join, filter_truthy.
      cbn [existsb] in Hany.
      apply orb_false_elim in Hany as [Hc Hany].
      apply orb_false_elim in Hany as [Hs Hany].
      apply orb_false_elim in Hany as [Hz _].
      cbn [List.filter]. rewrite Hc, Hs, Hz. discriminate.
  - intros Hany. by rewrite Hany.
Qed.

(** *** The report of a pipeline run *)

Lemma run_real_datasets_stub w name loc t :
  exists e1 e2 e3 t',
    run_datasets (datasets_to_search w name loc) [] t
      = (Ok [e1; e2; e3; sba_envelope], t')
    /\ source e1 = "SAM.gov" /\ source e2 = "USAspending.gov"
    /\ source e3 = "SEC EDGAR".
Proof.
  unfold datasets_to_search.
  destruct (search_sam_gov_returns w name (Some loc) t)
    as (e1 & t1 & H1 & S1 & _).
  rewrite run_datasets_cons, H1.
  match goal with |- context [run_datasets _ _ ?u] =>
    destruct (search_usaspending_returns w name u) as (e2 & t2 & H2 & S2 & _)
  end.
  rewrite run_datasets_cons, H2.
  match goal with |- context [run_datasets _ _ ?u] =>
    destruct (search_edgar_sec_returns w name u) as (e3 & t3 & H3 & S3 & _)
  end.
  rewrite run_datasets_cons, H3.
  exists e1, e2, e3. eexists. split; [reflexivity | auto].
Qed.

Lemma search_business_pipeline_record w business_info t :
  exists rec t',
    search_business_across_datasets w business_info t = (Ok rec, t')
    /\ pipeline_record (Full rec).
Proof.
  unfold search_business_across_datasets, bind, log, emit, now_iso, ret.
  match goal with
  | |- context [run_datasets (datasets_to_search w ?n ?l) [] ?t0] =>
      destruct (run_real_datasets_stub w n l t0)
        as (e1 & e2 & e3 & t' & H & S1 & S2 & S3)
  end.
  rewrite H. do 2 eexists. split; [reflexivity |].
  eexists _, e1, e2, e3. split; [reflexivity |]. cbn. auto.
Qed.

Lemma process_loop_pipeline_records w businesses :
  forall total idx all_results t,
  exists results t',
    process_loop w total idx businesses all_results t
      = (Ok (all_results ++ results), t')
    /\ Forall pipeline_record results
    /\ length results = length businesses.
Proof.
  induction businesses as [|business rest IH]; intros total idx acc t.
  - exists [], t. split; [by rewrite app_nil_r |]. split; constructor.
  - rewrite process_loop_cons.
    match goal with
    | |- context [search_business_across_datasets w business ?t0] =>
        destruct (search_business_pipeline_record w business t0)
          as (rec & t1 & -> & Hrec)
    end.
    edestruct IH as (results & t' & -> & Hall & Hlen).
    exists (Full rec :: results), t'. split; [by rewrite <- app_assoc |].
    split; [by constructor | cbn [length]; by rewrite Hlen].
Qed.

Lemma pipeline_source_count name results :
  Forall pipeline_record results ->
  In name ["SAM.gov"; "USAspending.gov"; "SEC EDGAR"; "SBA Data"] ->
  length (from_source name (all_envelopes results)) = length results.
Proof.
  intros Hall Hname. induction Hall as [|r rest Hr _ IH]; [reflexivity |].
  unfold all_envelopes in *. cbn [map concat].
  rewrite from_source_app, length_app, IH. cbn [length].
  destruct Hr as (rec & e1 & e2 & e3 & -> & Henvs & S1 & S2 & S3).
  cbn [envelopes_of]. rewrite Henvs. unfold from_source.
  cbn [List.filter]. rewrite S1, S2, S3. cbn [source sba_envelope].
  cbn [In] in Hname.
  destruct Hname as [<- | [<- | [<- | [<- | []]]]]; reflexivity.
Qed.

Lemma pipeline_stub_envelopes results :
  Forall pipeline_record results ->
  from_source "SBA Data" (all_envelopes results)
  = repeat sba_envelope (length results).
Proof.
  induction 1 as [|r rest Hr _ IH]; [reflexivity |].
  unfold all_envelopes in *. cbn [map concat].
  rewrite from_source_app, IH.
  destruct Hr as (rec & e1 & e2 & e3 & -> & Henvs & S1 & S2 & S3).
  cbn [envelopes_of]. rewrite Henvs. unfold from_source.
  cbn [List.filter]. rewrite S1, S2, S3. reflexivity.
Qed.

Lemma stub_counts k :
  length (List.filter (status_is "found") (repeat sba_envelope k)) = 0%nat
  /\ length (List.filter (status_is "not_found") (repeat sba_envelope k))
     = 0%nat
  /\ length (List.filter counted_as_error (repeat sba_envelope k)) = k.
Proof.
  induction k as [|k (Hf & Hn & He)]; [repeat split |].
  cbn [repeat List.filter].
  change (status_is "found" sba_envelope) with false.
  change (status_is "not_found" sba_envelope) with false.
  change (counted_as_error sba_envelope) with true.
  cbn [length]. rewrite He. auto.
Qed.

(** X19. In the statistics made from the results of a pipeline run,
    each of the four sources has a row whose three counters add up to
    the number of businesses, and the row of SBA Data counts every
    business as an error: the stub's status is neither found nor
    not_found. *)
Theorem pipeline_statistics_count_stub_as_error :
  forall w businesses t,
  exists results t',
    process_businesses w businesses t = (Ok results, t')
    /\ (forall name,
          In name ["SAM.gov"; "USAspending.gov"; "SEC EDGAR"; "SBA Data"] ->
          let row := stats_row name (snd (summary_statistics results)) in
          (stat_found row + stat_not_found row + stat_error row)%nat
          = length businesses)
    /\ stats_row "SBA Data" (snd (summary_statistics results))
       = {| stat_found := 0; stat_not_found := 0;
            stat_error := length businesses |}.
Proof.
  intros w businesses t. unfold process_businesses.
  destruct (process_loop_pipeline_records w businesses
              (Z.of_nat (length businesses)) 1 [] t)
    as (results & t' & H & Hall & Hlen).
  exists results, t'. split; [exact H |]. split.
  - intros name Hname. cbn zeta.
    unfold summary_statistics. cbn [snd].
    destruct (summarize_rows name results 0%nat []) as (Hf & Hn & He).
    cbn zeta in Hf, Hn, He.
    cbn [stats_row no_stats stat_found stat_not_found stat_error]
      in Hf, Hn, He.
    rewrite Hf, Hn, He. cbn [Nat.add].
    rewrite status_partition, <- Hlen.
    by apply pipeline_source_count.
  - unfold summary_statistics. cbn [snd].
    destruct (summarize_rows "SBA Data" results 0%nat []) as (Hf & Hn & He).
    cbn zeta in Hf, Hn, He.
    cbn [stats_row no_stats stat_found stat_not_found stat_error]
      in Hf, Hn, He.
    rewrite (pipeline_stub_envelopes results Hall) in Hf, Hn, He.
    destruct (stats_row "SBA Data" (snd (summarize results 0%nat [])))
      as [f n e].
    cbn [stat_found stat_not_found stat_error] in Hf, Hn, He.
    cbn [Nat.add] in Hf, Hn, He. subst f n e. rewrite <- Hlen.
    destruct (stub_counts (length results)) as (-> & -> & ->). reflexivity.
Qed.

(** *** Loading the input and ending without businesses *)

Lemma writes_of_log t lvl msg args :
  writes_of (t ++ [EvLog lvl msg args]) = writes_of t.
Proof. unfold writes_of. rewrite omap_app. simpl. apply app_nil_r. Qed.

Lemma column_present df :
  "business_name" ∈ columns df -> has_column "business_name" df = true.
Proof.
  unfold has_column. intros Hin. apply existsb_exists.
  exists "business_name". split; [by apply list_elem_of_In |].
  apply String.eqb_refl.
Qed.

Lemma combine_has_key (cols : list string) (row : list pyval) name :
  name ∈ cols -> length row = length cols ->
  dict_lookup (combine cols row) name <> None.
Proof.
  revert row. induction cols as [|c cols IH]; intros row Hin Hlen.
  - by apply elem_of_nil in Hin.
  - destruct row as [|v row]; [discriminate |].
    cbn [combine dict_lookup].
    destruct (String.eqb c name) eqn:Hc; [discriminate |].
    apply elem_of_cons in Hin as [-> | Hin].
    + by rewrite String.eqb_refl in Hc.
    + apply IH; [exact Hin | by injection Hlen].
Qed.

(** X1. When the file is read as a table that has the business_name
    column, the loader returns one dict per row of the table, in order,
    and every one of them has the key business_name (pandas rows are as
    wide as the header); the only event is the logger's count of the
    rows. *)
Theorem read_business_csv_returns_rows :
  forall w filepath t df,
    read_csv w filepath t = Ok df ->
    "business_name" ∈ columns df ->
    Forall (fun row => length row = length (columns df)) (rows df) ->
    read_business_csv w filepath t
    = (Ok (map (fun row => combine (columns df) row) (rows df)),
       t ++ [EvLog INFO "Loaded {len(df)} businesses from {filepath}"
               [VInt (Z.of_nat (length (rows df))); VStr filepath]])
    /\ Forall (fun business => dict_lookup business "business_name" <> None)
              (map (fun row => combine (columns df) row) (rows df)).
Proof.
  intros w filepath t df Hcsv Hcol Hwide. split.
  - unfold read_business_csv. run. rewrite Hcsv. simpl.
    rewrite (column_present _ Hcol). reflexivity.
  - apply List.Forall_map. eapply List.Forall_impl; [| exact Hwide].
    intros row Hlen. by apply combine_has_key.
Qed.

Lemma read_business_csv_rows_witness :
  read_business_csv (world_of no_env offline (Ok sample_data))
    "business_list.csv" []
  = (Ok (map (fun row => combine (columns sample_data) row)
             (rows sample_data)),
     [] ++ [EvLog INFO "Loaded {len(df)} businesses from {filepath}"
              [VInt (Z.of_nat (length (rows sample_data)));
               VStr "business_list.csv"]])
  /\ Forall (fun business => dict_lookup business "business_name" <> None)
            (map (fun row => combine (columns sample_data) row)
                 (rows sample_data)).
Proof.
  apply (read_business_csv_returns_rows
           (world_of no_env offline (Ok sample_data)) "business_list.csv" []
           sample_data);
    [reflexivity | apply elem_of_cons; by left | repeat constructor].
Defined.



Lemma read_business_csv_is_quiet w filepath t businesses t' :
  read_business_csv w filepath t = (Ok businesses, t') ->
  requests_of t' = requests_of t /\ writes_of t' = writes_of t.
Proof.
  unfold read_business_csv. run.
  destruct (read_csv w filepath t) as [df|e]; simpl.
  - destruct (has_column "business_name" df); simpl; intros [= _ <-];
      rewrite ?requests_of_log, ?writes_of_log; split; reflexivity.
  - intros [= _ <-]. rewrite requests_of_log, writes_of_log.
    split; reflexivity.
Qed.

(** X3. When the input file exists and the loader yields no business
    (the file cannot be read, has no row, or lacks the column), main
    ends normally after logging that no businesses were found: it has
    made no network call and written no file. *)
Theorem main_without_businesses_does_nothing :
  forall w t t1,
    path_exists w "business_list.csv" t = true ->
    read_business_csv w "business_list.csv" t = (Ok [], t1) ->
    main w t
    = (Ok tt, t1 ++ [EvLog ERROR "No businesses found in CSV file" []])
    /\ requests_of (t1 ++ [EvLog ERROR "No businesses found in CSV file" []])
       = requests_of t
    /\ writes_of (t1 ++ [EvLog ERROR "No businesses found in CSV file" []])
       = writes_of t.
Proof.
  intros w t t1 Hexists Hread.
  destruct (read_business_csv_is_quiet _ _ _ _ _ Hread) as [Hreq Hwr].
  rewrite requests_of_log, writes_of_log. split; [| auto].
  unfold main, bind, ret. rewrite Hexists. cbn [negb]. rewrite Hread.
  reflexivity.
Qed.

Lemma main_without_businesses_witness :
  main (world_of no_env acme_net (Ok empty_table)) []
  = (Ok tt,
     [EvLog INFO "Loaded {len(df)} businesses from {filepath}"
        [VInt 0; VStr "business_list.csv"]]
     ++ [EvLog ERROR "No businesses found in CSV file" []])
  /\ requests_of
       ([EvLog INFO "Loaded {len(df)} businesses from {filepath}"
           [VInt 0; VStr "business_list.csv"]]
        ++ [EvLog ERROR "No businesses found in CSV file" []])
     = requests_of []
  /\ writes_of
       ([EvLog INFO "Loaded {len(df)} businesses from {filepath}"
           [VInt 0; VStr "business_list.csv"]]
        ++ [EvLog ERROR "No businesses found in CSV file" []])
     = writes_of [].
Proof.
  apply (main_without_businesses_does_nothing
           (world_of no_env acme_net (Ok empty_table)) []
           [EvLog INFO "Loaded {len(df)} businesses from {filepath}"
              [VInt 0; VStr "business_list.csv"]]);
    reflexivity.
Defined.

(** *** The pause of the pipeline *)

Lemma process_loop_ends_with_pause w businesses :
  businesses <> [] ->
  forall total idx all_results t,
  exists results t0,
    process_loop w total idx businesses all_results t
    = (Ok results, t0 ++ [EvSleep (VInt 1)]).
Proof.
  induction businesses as [|business rest IH]; [contradiction |].
  intros _ total idx acc t. rewrite process_loop_cons.
  match goal with
  | |- context [search_business_across_datasets w business ?u] =>
      destruct (search_business_returns w business u) as (rec & t1 & -> & _)
  end.
  destruct rest as [|next rest].
  - cbn [process_loop ret]. eauto.
  - apply IH. discriminate.
Qed.

Lemma process_loop_pauses w businesses :
  forall total idx all_results t,
  exists results t',
    process_loop w total idx businesses all_results t = (Ok results, t')
    /\ pauses_after_each w total idx businesses t t'.
Proof.
  induction businesses as [|business rest IH]; intros total idx acc t.
  - exists acc, t. split; [reflexivity | constructor].
  - rewrite process_loop_cons.
    match goal with
    | |- context [search_business_across_datasets w business ?u] =>
        destruct (search_business_returns w business u)
          as (rec & t1 & Hrec & _)
    end.
    rewrite Hrec.
    destruct (IH total (idx + 1) (acc ++ [Full rec])
                (t1 ++ [EvSleep (VInt 1)])) as (results & t' & -> & Hrest).
    exists results, t'. split; [reflexivity |].
    econstructor; eassumption.
Qed.

(** X20. The pipeline pauses one second after every business: a run
    is, for each business in turn, its processing line, the events of
    its dispatch and then the pause; so for a non-empty input the last
    event of the run is the pause after the last business. *)
Theorem pipeline_pauses_after_every_business :
  forall w businesses t,
  exists results t',
    process_businesses w businesses t = (Ok results, t')
    /\ pauses_after_each w (Z.of_nat (length businesses)) 1 businesses t t'
    /\ (businesses <> [] -> exists t0, t' = t0 ++ [EvSleep (VInt 1)]).
Proof.
  intros w businesses t. unfold process_businesses.
  destruct (process_loop_pauses w businesses
              (Z.of_nat (length businesses)) 1 [] t)
    as (results & t' & Hrun & Hpauses).
  exists results, t'. split; [exact Hrun |]. split; [exact Hpauses |].
  intros Hne.
  destruct (process_loop_ends_with_pause w businesses Hne
              (Z.of_nat (length businesses)) 1 [] t)
    as (results' & t0 & Hend).
  exists t0. congruence.
Qed.

(** *** The report file *)

Lemma generate_report_name w results output_file t :
  exists k,
    generate_report w results output_file t
    = k (report_name w output_file t)
    /\ k = fun name =>
         (let* _ := lift (report_locations results) in
          write_file w name
            (HtmlReport results (now_strftime w "%Y-%m-%d %H:%M:%S" t));;
          log INFO "Report generated: {output_file}" [VStr name];;
          ret name) t.
Proof.
  eexists. split; [| reflexivity].
  unfold generate_report, report_name, bind, ret, strftime.
  destruct output_file as [name|]; [| reflexivity].
  destruct (truthy (VStr name)); reflexivity.
Qed.

(** X21. The report is built before its file is opened: when the
    location line of a result cannot be joined (a city, state or zip
    that is true in Python's sense and not a string), generate_report
    raises the TypeError of the join and leaves the trace as it was, no
    file opened or written and nothing logged. *)
Theorem report_with_unjoinable_location_writes_nothing :
  forall w results output_file t e,
    report_locations results = Raise e ->
    generate_report w results output_file t = (Raise e, t).
Proof.
  intros w results output_file t e Hloc.
  destruct (generate_report_name w results output_file t) as (k & -> & ->).
  unfold bind, lift. by rewrite Hloc.
Qed.

(** X22. When every location line can be joined and the file opens,
    generate_report writes the report once, under the name it was given
    or, without one, the name made from the clock, logs it and returns
    the name. *)
Theorem report_is_written_once_and_logged :
  forall w results output_file t lines,
    report_locations results = Ok lines ->
    open_for_writing w (report_name w output_file t) t = Ok tt ->
    generate_report w results output_file t
    = (Ok (report_name w output_file t),
       t ++ [EvWrite (report_name w output_file t)
               (HtmlReport results (now_strftime w "%Y-%m-%d %H:%M:%S" t));
             EvLog INFO "Report generated: {output_file}"
               [VStr (report_name w output_file t)]]).
Proof.
  intros w results output_file t lines Hloc Hopen.
  destruct (generate_report_name w results output_file t) as (k & -> & ->).
  unfold bind, lift, write_file, log, emit, ret. rewrite Hloc, Hopen.
  by rewrite <- app_assoc.
Qed.

(** X23. When the first business of the input has a location that
    cannot be joined, main raises the TypeError of the join once the
    pipeline has run over every business: the run ends with the trace
    of the pipeline, with no report, no JSON file and no closing log
    line after it. *)
Theorem main_fails_after_the_pipeline_on_an_unjoinable_location :
  forall w t t1 business rest e,
    path_exists w "business_list.csv" t = true ->
    read_business_csv w "business_list.csv" t = (Ok (business :: rest), t1) ->
    report_location (location_of business) = Raise e ->
    main w t
    = (Raise e,
       snd (process_businesses w (business :: rest)
              (t1 ++ [EvLog INFO
                        "Starting search for {len(businesses)} businesses..."
                        [VInt (Z.of_nat (length (business :: rest)))]]))).
Proof.
  intros w t t1 business rest e Hexists Hread Hloc.
  unfold main, bind, ret. rewrite Hexists. cbn [negb]. rewrite Hread.
  unfold log, emit. unfold process_businesses.
  match goal with
  | |- context [process_loop w ?total ?idx ?bs ?acc ?u] =>
      destruct (process_loop_returns w bs total idx acc u)
        as (results & t' & Hrun & Hrecords)
  end.
  rewrite Hrun. cbn [app snd].
  inversion Hrecords as [|? r ? results' (rec & -> & _ & Hrec & _) _]; subst.
  destruct (generate_report_name w (Full rec :: results') None t')
    as (k & -> & ->).
  unfold bind, lift. cbn [report_locations location_field].
  rewrite Hrec. unfold location_of in Hloc. by rewrite Hloc.
Qed.

Lemma main_numeric_zip_witness :
  main (world_of no_env offline (Ok numeric_zip_table)) []
  = (Raise (Exn "TypeError"
              "sequence item 2: expected str instance, int found"),
     snd (process_businesses (world_of no_env offline (Ok numeric_zip_table))
            [numeric_zip_row]
            ([EvLog INFO "Loaded {len(df)} businesses from {filepath}"
                [VInt 1; VStr "business_list.csv"]]
             ++ [EvLog INFO
                   "Starting search for {len(businesses)} businesses..."
                   [VInt (Z.of_nat (length [numeric_zip_row]))]]))).
Proof.
  apply (main_fails_after_the_pipeline_on_an_unjoinable_location
           (world_of no_env offline (Ok numeric_zip_table)) []
           [EvLog INFO "Loaded {len(df)} businesses from {filepath}"
              [VInt 1; VStr "business_list.csv"]]
           numeric_zip_row []
           (Exn "TypeError"
              "sequence item 2: expected str instance, int found"));
    reflexivity.
Defined.

Lemma report_unjoinable_witness :
  generate_report (world_of no_env offline no_file)
    [Full {| business_name := VStr "Acme Rockets Inc";
             location := location_of numeric_zip_row;
             search_timestamp := "2024-05-01T12:00:00";
             datasets_searched := [sba_envelope] |}] None []
  = (Raise (Exn "TypeError"
              "sequence item 2: expected str instance, int found"), []).
Proof.
  apply (report_with_unjoinable_location_writes_nothing
           (world_of no_env offline no_file)
           [Full {| business_name := VStr "Acme Rockets Inc";
                    location := location_of numeric_zip_row;
                    search_timestamp := "2024-05-01T12:00:00";
                    datasets_searched := [sba_envelope] |}] None []
           (Exn "TypeError"
              "sequence item 2: expected str instance, int found")).
  reflexivity.
Defined.

Lemma report_written_witness :
  generate_report (world_of no_env offline no_file)
    [Full {| business_name := VStr "Acme Rockets Inc";
             location := [("city", VStr "Mojave"); ("state", VStr "CA");
                          ("zip", VNone)];
             search_timestamp := "2024-05-01T12:00:00";
             datasets_searched := [sba_envelope] |}] (Some "report.html") []
  = (Ok "report.html",
     [] ++ [EvWrite "report.html"
              (HtmlReport
                 [Full {| business_name := VStr "Acme Rockets Inc";
                          location := [("city", VStr "Mojave");
                                       ("state", VStr "CA"); ("zip", VNone)];
                          search_timestamp := "2024-05-01T12:00:00";
                          datasets_searched := [sba_envelope] |}]
                 (now_strftime (world_of no_env offline no_file)
                    "%Y-%m-%d %H:%M:%S" []));
            EvLog INFO "Report generated: {output_file}"
              [VStr "report.html"]]).
Proof.
  apply (report_is_written_once_and_logged
           (world_of no_env offline no_file)
           [Full {| business_name := VStr "Acme Rockets Inc";
                    location := [("city", VStr "Mojave"); ("state", VStr "CA");
                                 ("zip", VNone)];
                    search_timestamp := "2024-05-01T12:00:00";
                    datasets_searched := [sba_envelope] |}]
           (Some "report.html") [] [Some "Mojave, CA"]);
    reflexivity.
Defined.
